(** * EventKampus API: registration, payment reconciliation and token refresh

    A shallow embedding of the Express handlers of [api/index.js] that touch
    the "Registrasi" ledger, together with the properties the specification
    states about them.

    Conventions of the embedding:
    - a table is a list of rows, in insertion order; a query is a filter over
      it and [rows[0]] is the head of the result;
    - a handler is a function from the database, the request and the values
      the outside world supplies during the request (clock readings, the id
      the database assigns to a new row, the gateway's answers) to the new
      database, the HTTP response and the list of observable effects, in the
      order they happen;
    - numbers (ids, prices, quotas, HTTP statuses) are [Z];
    - the embedding has two layers.  The handlers ([register_handler],
      [add_ticket_handler], [confirm_payment_handler], ...) take the
      identifiers of a request after their conversion to an integer and run
      on one state of the database; [step] and [reachable] describe the
      server handling one request after another.  The routes
      ([register_route], [add_ticket_route], [confirm_payment_route], ...)
      take the identifiers as text, as they stand in the URL and in the JSON
      body, answer 500 where the database rejects that text, and run
      statement by statement: what other requests write between two
      statements of a route is given to it as a function on databases. *)

From Stdlib Require Import ZArith List String Ascii Bool Lia.
From Stdlib Require Import DecimalString DecimalZ DecimalPos DecimalFacts.
Import ListNotations.

Local Open Scope string_scope.
Local Open Scope Z_scope.

(** ** JavaScript string primitives used by the handlers *)

Module Js.

(** Number-to-string conversion of a template literal, for an integer
    below 10^21 in absolute value (plain decimal digits, a minus sign for
    negative numbers). *)
Definition number_to_string (z : Z) : string :=
  NilEmpty.string_of_int (Z.to_int z).

(** [s.split(sep)] for a one-character separator. *)
Fixpoint split (sep : ascii) (s : string) : list string :=
  match s with
  | EmptyString => [EmptyString]
  | String c rest =>
      if Ascii.eqb c sep then EmptyString :: split sep rest
      else match split sep rest with
           | [] => [String c EmptyString]
           | hd :: tl => String c hd :: tl
           end
  end.

(** [x == 'literal'] where [x] may be [undefined]. *)
Definition loose_eq (x : option string) (lit : string) : bool :=
  match x with
  | Some s => String.eqb s lit
  | None => false
  end.

End Js.

(** ** PostgreSQL: text input of an [integer] parameter *)

Module Pg.

Definition is_space (c : ascii) : bool :=
  match Ascii.N_of_ascii c with
  | 32%N | 9%N | 10%N | 11%N | 12%N | 13%N => true
  | _ => false
  end.

Definition is_digit (c : ascii) : bool :=
  let n := Ascii.N_of_ascii c in (48 <=? n)%N && (n <=? 57)%N.

Fixpoint skip_spaces (s : string) : string :=
  match s with
  | String c rest => if is_space c then skip_spaces rest else s
  | EmptyString => EmptyString
  end.

(** The longest prefix of digits, and what follows it. *)
Fixpoint span_digits (s : string) : string * string :=
  match s with
  | String c rest =>
      if is_digit c
      then let (ds, tl) := span_digits rest in (String c ds, tl)
      else (EmptyString, s)
  | EmptyString => (EmptyString, EmptyString)
  end.

Definition digits_value (ds : string) : option Z :=
  match ds with
  | EmptyString => None
  | _ => option_map Z.of_uint (NilEmpty.uint_of_string ds)
  end.

Definition int4_min : Z := -2147483648.
Definition int4_max : Z := 2147483647.

(** [int4in]: optional blanks, optional sign, at least one digit, optional
    blanks, and the value within the 32-bit range; [None] stands for the
    error the server raises on anything else. *)
Definition int4_in (s : string) : option Z :=
  let s1 := skip_spaces s in
  let '(neg, s2) :=
    match s1 with
    | String "-" r => (true, r)
    | String "+" r => (false, r)
    | _ => (false, s1)
    end in
  let '(ds, tl) := span_digits s2 in
  match digits_value ds, skip_spaces tl with
  | Some v, EmptyString =>
      let z := (if neg then - v else v)%Z in
      if ((int4_min <=? z) && (z <=? int4_max))%Z then Some z else None
  | _, _ => None
  end.

End Pg.

(** ** Data model: the rows of the four tables *)

Inductive Role := PESERTA | ORGANISASI.

Inductive StatusPembayaran := PENDING | LUNAS | BATAL.

Record User := mkUser {
  u_id : Z;
  u_email : string;
  u_password : string;
  u_nama_lengkap : string;
  u_role : Role
}.

Record Event := mkEvent {
  e_id : Z;
  e_nama_event : string;
  e_deskripsi : string;
  e_lokasi : string;
  e_created_by_user_id : Z
}.

Record TiketTipe := mkTiketTipe {
  tt_id : Z;
  tt_event_id : Z;
  tt_nama_tiket : string;
  tt_harga : Z;
  tt_kuota : Z
}.

Record Registrasi := mkRegistrasi {
  r_id : Z;
  r_event_id : Z;
  r_user_id : Z;
  r_tiket_tipe_id : Z;
  r_status_pembayaran : StatusPembayaran;
  r_qr_code_unik : string
}.

(** Modelled from the spec: the table definitions are not among the
    sources.  A row carries the columns the handlers' SQL statements name,
    and [id] is the key the database assigns on insertion (spec, section 3);
    the four tables are kept in insertion order. *)
Record Db := mkDb {
  tbl_User : list User;
  tbl_Event : list Event;
  tbl_TiketTipe : list TiketTipe;
  tbl_Registrasi : list Registrasi
}.


Definition Role_eqb (a b : Role) : bool :=
  match a, b with
  | PESERTA, PESERTA | ORGANISASI, ORGANISASI => true
  | _, _ => false
  end.

Definition Status_eqb (a b : StatusPembayaran) : bool :=
  match a, b with
  | PENDING, PENDING | LUNAS, LUNAS | BATAL, BATAL => true
  | _, _ => false
  end.

(** ** jsonwebtoken: signed tokens, symbolically

    A token is either a payload signed under some secret with an expiry
    time, or a string that is no token at all.  Verification under a secret
    accepts exactly the tokens signed under it, and checks the signature
    before the expiry, as the library does. *)

Module Jwt.

Record Payload := mkPayload {
  p_userId : Z;
  p_email : option string;
  p_role : option Role;
  p_type : option string
}.

Inductive Token :=
| Signed (secret : string) (payload : Payload) (exp : Z)
| Malformed (raw : string).

Inductive VerifyResult :=
| Verified (decoded : Payload)
| TokenExpiredError
| JsonWebTokenError.

Definition sign (payload : Payload) (secret : string)
           (now expiresIn : Z) : Token :=
  Signed secret payload (now + expiresIn).

Definition verify (now : Z) (token : Token) (secret : string)
  : VerifyResult :=
  match token with
  | Malformed _ => JsonWebTokenError
  | Signed k payload exp =>
      if String.eqb k secret
      then if (exp <=? now)%Z then TokenExpiredError else Verified payload
      else JsonWebTokenError
  end.

End Jwt.

(** ** Responses and observable effects *)

Record Pendaftaran := mkPendaftaran {
  pb_id : Z;
  pb_status_pembayaran : StatusPembayaran;
  pb_qr_code_unik : string
}.

Record UserPublic := mkUserPublic {
  up_id : Z;
  up_email : string;
  up_nama_lengkap : string;
  up_role : Role
}.

Inductive Body :=
| BMessage (message : string)
| BTokenExpired
| BRegistered (message : string) (pendaftaran : Pendaftaran)
              (paymentToken : option string) (paymentUrl : option string)
              (isFree : bool)
| BConfirmed (row : option (Z * StatusPembayaran))
| BRefreshed (token : Jwt.Token) (user : UserPublic)
| BTicket (tiketBaru : TiketTipe).

Record Response := mkResponse {
  status : Z;
  body : Body
}.

(** The request to [snap.createTransaction]. *)
Record SnapParameter := mkSnapParameter {
  order_id : string;
  gross_amount : Z;
  customer_email : string;
  customer_first_name : string;
  item_id : Z;
  item_price : Z;
  item_quantity : Z;
  item_name : string
}.

(** What a request does besides answering and writing to the database.  A
    console line is recorded by its fixed prefix. *)
Inductive Effect :=
| ConsoleLog (line : string)
| ConsoleError (line : string)
| SnapCreateTransaction (parameter : SnapParameter)
| SnapTransactionNotification.

Definition Outcome : Type := Db * Response * list Effect.

Definition out_db (o : Outcome) : Db := fst (fst o).
Definition out_response (o : Outcome) : Response := snd (fst o).
Definition out_effects (o : Outcome) : list Effect := snd o.

Definition is_gateway_call (e : Effect) : bool :=
  match e with
  | SnapCreateTransaction _ | SnapTransactionNotification => true
  | _ => false
  end.

Definition is_console_error (e : Effect) : bool :=
  match e with
  | ConsoleError _ => true
  | _ => false
  end.

(** ** Queries of the handlers *)

Definition tiketQuery (db : Db) (tiket_tipe_id eventId : Z)
  : list (TiketTipe * Event) :=
  flat_map
    (fun tt =>
       map (fun e => (tt, e))
           (filter (fun e => (tt_event_id tt =? e_id e)
                             && (tt_id tt =? tiket_tipe_id)
                             && (e_id e =? eventId))%Z
                   (tbl_Event db)))
    (tbl_TiketTipe db).

Definition registrasiCheckQuery (db : Db) (userId eventId : Z)
  : list Registrasi :=
  filter (fun r => (r_user_id r =? userId) && (r_event_id r =? eventId))%Z
         (tbl_Registrasi db).

Definition countQuery (db : Db) (tiket_tipe_id : Z) : Z :=
  Z.of_nat
    (List.length (filter (fun r => (r_tiket_tipe_id r =? tiket_tipe_id)%Z)
                    (tbl_Registrasi db))).

Definition userQuery (db : Db) (userId : Z) : list User :=
  filter (fun u => (u_id u =? userId)%Z) (tbl_User db).

(** [INSERT INTO "Registrasi" ... RETURNING id, status_pembayaran,
    qr_code_unik].  The id is the one the database assigns; it is rejected
    when the primary key is already taken. *)
Definition insertRegistrasiQuery (db : Db) (new_id eventId userId
                                  tiket_tipe_id : Z)
           (st : StatusPembayaran) (qr : string)
  : option (Db * Pendaftaran) :=
  if existsb (fun r => (r_id r =? new_id)%Z) (tbl_Registrasi db) then None
  else
    Some (mkDb (tbl_User db) (tbl_Event db) (tbl_TiketTipe db)
               (tbl_Registrasi db ++
                [mkRegistrasi new_id eventId userId tiket_tipe_id st qr])%list,
          mkPendaftaran new_id st qr).

(** [UPDATE "Registrasi" SET status_pembayaran = st WHERE id = target]. *)
Definition set_status (st : StatusPembayaran) (target : Z) (r : Registrasi)
  : Registrasi :=
  if (r_id r =? target)%Z
  then mkRegistrasi (r_id r) (r_event_id r) (r_user_id r)
                    (r_tiket_tipe_id r) st (r_qr_code_unik r)
  else r.

Definition updateStatusQuery (db : Db) (st : StatusPembayaran) (target : Z)
  : Db * list Registrasi :=
  let rows := map (set_status st target) (tbl_Registrasi db) in
  (mkDb (tbl_User db) (tbl_Event db) (tbl_TiketTipe db) rows,
   filter (fun r => (r_id r =? target)%Z) rows).

Definition public_user (u : User) : UserPublic :=
  mkUserPublic (u_id u) (u_email u) (u_nama_lengkap u) (u_role u).

(** ** Handlers *)

Section Handlers.

Variables JWT_SECRET JWT_REFRESH_SECRET : string.

(** [authenticateToken]: the bearer token of the Authorization header, if
    any, verified at time [now]. *)
Definition authenticateToken (now : Z) (bearer : option Jwt.Token)
  : (Response * list Effect) + Jwt.Payload :=
  match bearer with
  | None | Some (Jwt.Malformed EmptyString) =>
      inl (mkResponse 401 (BMessage "Akses ditolak: Token tidak ada"), [])
  | Some token =>
      match Jwt.verify now token JWT_SECRET with
      | Jwt.Verified user => inr user
      | Jwt.TokenExpiredError =>
          inl (mkResponse 401 BTokenExpired,
               [ConsoleLog "[SECURITY] Token verification failed"])
      | Jwt.JsonWebTokenError =>
          inl (mkResponse 403
                 (BMessage "Akses ditolak: Token tidak valid"),
               [ConsoleLog "[SECURITY] Token verification failed"])
      end
  end.

(** [requireRole(allowedRoles)]. *)
Definition requireRole (allowedRoles : list Role) (user : Jwt.Payload)
  : option (Response * list Effect) :=
  match Jwt.p_role user with
  | None =>
      Some (mkResponse 403
              (BMessage "Akses ditolak: Role tidak terdeteksi"), [])
  | Some userRole =>
      if existsb (Role_eqb userRole) allowedRoles then None
      else
        Some (mkResponse 403
                (BMessage "Akses ditolak: Anda tidak memiliki izin"),
              [ConsoleLog "[SECURITY] Unauthorized role access attempt"])
  end.

Definition server_error : Response :=
  mkResponse 500 (BMessage "Terjadi kesalahan pada server").

(** *** POST /api/events/:eventId/register *)

Record RegisterWorld := mkRegisterWorld {
  rw_clock : Z;           (* time at which the access token is verified *)
  rw_now_qr : Z;          (* Date.now() of the redemption code *)
  rw_new_id : Z;          (* id the database gives the new row *)
  rw_now_order : Z;       (* Date.now() of the order id *)
  rw_createTransaction : SnapParameter -> option string
                          (* the gateway: a token, or an exception *)
}.

Definition qr_code (eventId userId now : Z) : string :=
  "EVT-" ++ Js.number_to_string eventId ++ "-USR-"
         ++ Js.number_to_string userId ++ "-" ++ Js.number_to_string now.

Definition make_order_id (registrasi_id now : Z) : string :=
  "ORDER-" ++ Js.number_to_string registrasi_id ++ "-"
           ++ Js.number_to_string now.

Definition snap_parameter (pendaftaranBaru : Pendaftaran) (now : Z)
           (tiket_tipe_id : Z) (tiketData : TiketTipe * Event)
           (userData : User) : SnapParameter :=
  mkSnapParameter
    (make_order_id (pb_id pendaftaranBaru) now)
    (tt_harga (fst tiketData))
    (u_email userData)
    (u_nama_lengkap userData)
    tiket_tipe_id
    (tt_harga (fst tiketData))
    1
    (e_nama_event (snd tiketData) ++ " - " ++ tt_nama_tiket (fst tiketData)).

Definition payment_url (paymentToken : option string) : option string :=
  match paymentToken with
  | Some t =>
      if String.eqb t "" then None
      else Some ("https://app.sandbox.midtrans.com/snap/v2/vtweb/" ++ t)
  | None => None
  end.

Definition register_handler (w : RegisterWorld) (db : Db)
           (bearer : option Jwt.Token) (eventId tiket_tipe_id : Z)
  : Outcome :=
  match authenticateToken (rw_clock w) bearer with
  | inl (resp, fx) => (db, resp, fx)
  | inr user =>
    let userId := Jwt.p_userId user in
    let dbg := ConsoleLog "[DEBUG] User mendaftar ke event" in
    let err := ConsoleError "--- ERROR SAAT POST /api/events/register" in
    match tiketQuery db tiket_tipe_id eventId with
    | [] =>
        (db, mkResponse 404
               (BMessage "Tipe tiket tidak valid untuk event ini"), [dbg])
    | tiketData :: _ =>
      if (0 <? Z.of_nat (List.length (registrasiCheckQuery db userId eventId)))%Z
      then (db, mkResponse 400
                  (BMessage "Anda sudah terdaftar di event ini"), [dbg])
      else
        let jumlahTerdaftar := countQuery db tiket_tipe_id in
        if (tt_kuota (fst tiketData) <=? jumlahTerdaftar)%Z
        then (db, mkResponse 400
                    (BMessage "Maaf, tiket untuk tipe ini sudah habis"),
              [dbg])
        else
          let qrCodeUnik := qr_code eventId userId (rw_now_qr w) in
          match insertRegistrasiQuery db (rw_new_id w) eventId userId
                                      tiket_tipe_id PENDING qrCodeUnik with
          | None => (db, server_error, [dbg; err])
          | Some (db', pendaftaranBaru) =>
            let harga := tt_harga (fst tiketData) in
            let ok := ConsoleLog "[SUCCESS] User berhasil mendaftar" in
            if (0 <? harga)%Z then
              match userQuery db' userId with
              | [] => (db', server_error, [dbg; err])
              | userData :: _ =>
                let parameter :=
                  snap_parameter pendaftaranBaru (rw_now_order w)
                                 tiket_tipe_id tiketData userData in
                match rw_createTransaction w parameter with
                | None =>
                    (db', server_error,
                     [dbg; SnapCreateTransaction parameter; err])
                | Some token =>
                    (db',
                     mkResponse 201
                       (BRegistered
                          "Pendaftaran berhasil! Silakan selesaikan pembayaran."
                          pendaftaranBaru (Some token)
                          (payment_url (Some token)) (harga =? 0)%Z),
                     [dbg; SnapCreateTransaction parameter; ok])
                end
              end
            else
              (db',
               mkResponse 201
                 (BRegistered "Pendaftaran berhasil!" pendaftaranBaru None
                              (payment_url None) (harga =? 0)%Z),
               [dbg; ok])
          end
    end
  end.

(** *** POST /api/events/:eventId/tickets *)

(** [sanitizeInput]: drops the characters [<], [>], the double quote and
    the single quote. *)
Definition is_stripped (c : ascii) : bool :=
  match Ascii.N_of_ascii c with
  | 60%N | 62%N | 34%N | 39%N => true
  | _ => false
  end.

Fixpoint sanitizeInput (s : string) : string :=
  match s with
  | EmptyString => EmptyString
  | String c rest =>
      if is_stripped c then sanitizeInput rest
      else String c (sanitizeInput rest)
  end.

(** The express-validator chain of the route; [nama_tiket] is the field
    after its [trim()]. *)
Definition ticket_validation (nama_tiket : string) (harga kuota : Z)
  : bool :=
  ((3 <=? String.length nama_tiket)%nat
   && (String.length nama_tiket <=? 100)%nat
   && (0 <=? harga)%Z && (1 <=? kuota)%Z).

Definition eventCheckQuery (db : Db) (eventId : Z) : list Event :=
  filter (fun e => (e_id e =? eventId)%Z) (tbl_Event db).

Definition insertTicketQuery (db : Db) (new_id eventId : Z)
           (nama_tiket : string) (harga kuota : Z)
  : option (Db * TiketTipe) :=
  if existsb (fun t => (tt_id t =? new_id)%Z) (tbl_TiketTipe db) then None
  else
    let tiketBaru := mkTiketTipe new_id eventId nama_tiket harga kuota in
    Some (mkDb (tbl_User db) (tbl_Event db)
               (tbl_TiketTipe db ++ [tiketBaru])%list (tbl_Registrasi db),
          tiketBaru).

Definition validation_failed : Response :=
  mkResponse 400 (BMessage "Validasi gagal").

Definition add_ticket_handler (clock new_id : Z) (db : Db)
           (bearer : option Jwt.Token) (eventId : Z)
           (nama_tiket : string) (harga kuota : Z) : Outcome :=
  match authenticateToken clock bearer with
  | inl (resp, fx) => (db, resp, fx)
  | inr user =>
    match requireRole [ORGANISASI] user with
    | Some (resp, fx) => (db, resp, fx)
    | None =>
      if negb (ticket_validation nama_tiket harga kuota)
      then (db, validation_failed, [])
      else
        let organizationUserId := Jwt.p_userId user in
        let nama := sanitizeInput nama_tiket in
        match eventCheckQuery db eventId with
        | [] => (db, mkResponse 404 (BMessage "Event tidak ditemukan"), [])
        | ev :: _ =>
          if negb (e_created_by_user_id ev =? organizationUserId)%Z
          then (db,
                mkResponse 403
                  (BMessage "Akses ditolak: Anda bukan pemilik event ini"),
                [ConsoleLog "[SECURITY] Unauthorized ticket creation attempt"])
          else
            match insertTicketQuery db new_id eventId nama harga kuota with
            | None =>
                (db, server_error,
                 [ConsoleError "[ERROR] Create ticket failed"])
            | Some (db', tiketBaru) =>
                (db', mkResponse 201 (BTicket tiketBaru),
                 [ConsoleLog "[AUDIT] Ticket created"])
            end
        end
    end
  end.

(** *** PATCH /api/organisasi/confirm-payment/:registrasiId *)

Definition verificationQuery (db : Db) (registrasiId : Z)
  : list (Z * StatusPembayaran) :=
  flat_map
    (fun r =>
       map (fun e => (e_created_by_user_id e, r_status_pembayaran r))
           (filter (fun e => (r_event_id r =? e_id e)
                             && (r_id r =? registrasiId))%Z
                   (tbl_Event db)))
    (tbl_Registrasi db).

Definition confirm_payment_handler (clock : Z) (db : Db)
           (bearer : option Jwt.Token) (registrasiId : Z) : Outcome :=
  match authenticateToken clock bearer with
  | inl (resp, fx) => (db, resp, fx)
  | inr user =>
    match requireRole [ORGANISASI] user with
    | Some (resp, fx) => (db, resp, fx)
    | None =>
      let organizationUserId := Jwt.p_userId user in
      match verificationQuery db registrasiId with
      | [] =>
          (db, mkResponse 404
                 (BMessage "Data pendaftaran tidak ditemukan"), [])
      | row :: _ =>
        if negb (fst row =? organizationUserId)%Z
        then (db,
              mkResponse 403
                (BMessage
                   "Akses ditolak: Anda tidak berhak mengkonfirmasi pendaftaran ini"),
              [ConsoleLog
                 "[SECURITY] Unauthorized payment confirmation attempt"])
        else
          let (db', rows) := updateStatusQuery db LUNAS registrasiId in
          (db',
           mkResponse 200
             (BConfirmed
                (option_map (fun r => (r_id r, r_status_pembayaran r))
                            (hd_error rows))),
           [ConsoleLog "[AUDIT] Payment confirmed"])
      end
    end
  end.

(** *** POST /api/payment/notification *)

(** What [snap.transaction.notification] resolves to; a field the gateway
    leaves out is [None]. *)
Record StatusResponse := mkStatusResponse {
  sr_order_id : option string;
  sr_transaction_status : option string;
  sr_fraud_status : option string
}.

Definition newStatus (transactionStatus fraudStatus : option string)
  : StatusPembayaran :=
  if Js.loose_eq transactionStatus "capture" then
    if Js.loose_eq fraudStatus "accept" then LUNAS else PENDING
  else if Js.loose_eq transactionStatus "settlement" then LUNAS
  else if Js.loose_eq transactionStatus "cancel"
          || Js.loose_eq transactionStatus "deny"
          || Js.loose_eq transactionStatus "expire" then BATAL
  else if Js.loose_eq transactionStatus "pending" then PENDING
  else PENDING.

(** [orderId.split('-')[1]], [None] when the array has no second element. *)
Definition registrasiId_of_order (orderId : string) : option string :=
  nth_error (Js.split "-" orderId) 1.

Definition notification_error : Response :=
  mkResponse 500 (BMessage "Error processing notification").

Definition notification_received : Response :=
  mkResponse 200 (BMessage "Notification received").

(** [gateway] is the outcome of [snap.transaction.notification]: the
    status response, or [None] when the call throws. *)
Definition notification_handler (gateway : option StatusResponse) (db : Db)
  : Outcome :=
  let recv := ConsoleLog "[MIDTRANS] Menerima notifikasi" in
  let err := ConsoleError "[MIDTRANS ERROR]" in
  match gateway with
  | None => (db, notification_error, [recv; SnapTransactionNotification; err])
  | Some statusResponse =>
    let info := ConsoleLog "[MIDTRANS] Order - Status, Fraud" in
    match sr_order_id statusResponse with
    | None =>
        (db, notification_error,
         [recv; SnapTransactionNotification; info; err])
    | Some orderId =>
      let st := newStatus (sr_transaction_status statusResponse)
                          (sr_fraud_status statusResponse) in
      let done := ConsoleLog "[MIDTRANS] Registrasi diupdate ke status" in
      match registrasiId_of_order orderId with
      | None =>
          (* the parameter is undefined, sent as NULL: no row matches *)
          (db, notification_received,
           [recv; SnapTransactionNotification; info; done])
      | Some registrasiId =>
        match Pg.int4_in registrasiId with
        | None =>
            (db, notification_error,
             [recv; SnapTransactionNotification; info; err])
        | Some target =>
            (fst (updateStatusQuery db st target), notification_received,
             [recv; SnapTransactionNotification; info; done])
        end
      end
    end
  end.

(** *** POST /api/auth/refresh *)

Definition access_payload (user : User) : Jwt.Payload :=
  Jwt.mkPayload (u_id user) (Some (u_email user)) (Some (u_role user)) None.

Definition one_hour : Z := 3600.

Definition refresh_handler (clock : Z) (db : Db)
           (refreshToken : option Jwt.Token) : Outcome :=
  match refreshToken with
  | None | Some (Jwt.Malformed EmptyString) =>
      (db, mkResponse 401 (BMessage "Refresh token tidak ada"), [])
  | Some token =>
    match Jwt.verify clock token JWT_REFRESH_SECRET with
    | Jwt.Verified decoded =>
      match userQuery db (Jwt.p_userId decoded) with
      | [] => (db, mkResponse 404 (BMessage "User tidak ditemukan"), [])
      | user :: _ =>
          (db,
           mkResponse 200
             (BRefreshed
                (Jwt.sign (access_payload user) JWT_SECRET clock one_hour)
                (public_user user)),
           [])
      end
    | _ =>
        (db, mkResponse 403 (BMessage "Refresh token tidak valid"),
         [ConsoleLog "[SECURITY] Invalid refresh token"])
    end
  end.

(** The database with its ledger replaced, and the row a successful
    registration appends. *)
Definition with_registrasi (db : Db) (rows : list Registrasi) : Db :=
  mkDb (tbl_User db) (tbl_Event db) (tbl_TiketTipe db) rows.

Definition new_row (w : RegisterWorld) (userId eventId tiket_tipe_id : Z)
  : Registrasi :=
  mkRegistrasi (rw_new_id w) eventId userId tiket_tipe_id PENDING
               (qr_code eventId userId (rw_now_qr w)).

(** ** The server as a transition system

    Every write the API can make to the database.  The two handlers that
    fill "User" and "Event" do not touch the other tables; they are taken
    as the insertion of an arbitrary row under a fresh id, which covers
    whatever their validation lets through. *)

Inductive Action :=
| InsertUser (u : User)
| InsertEvent (e : Event)
| AddTicket (clock new_id : Z) (bearer : option Jwt.Token) (eventId : Z)
            (nama_tiket : string) (harga kuota : Z)
| Register (w : RegisterWorld) (bearer : option Jwt.Token)
           (eventId tiket_tipe_id : Z)
| ConfirmPayment (clock : Z) (bearer : option Jwt.Token) (registrasiId : Z)
| PaymentNotification (gateway : option StatusResponse).

Definition insert_user (db : Db) (u : User) : Db :=
  if existsb (fun x => (u_id x =? u_id u)%Z) (tbl_User db) then db
  else mkDb (tbl_User db ++ [u])%list (tbl_Event db) (tbl_TiketTipe db)
            (tbl_Registrasi db).

Definition insert_event (db : Db) (e : Event) : Db :=
  if existsb (fun x => (e_id x =? e_id e)%Z) (tbl_Event db) then db
  else mkDb (tbl_User db) (tbl_Event db ++ [e])%list (tbl_TiketTipe db)
            (tbl_Registrasi db).

Definition step (db : Db) (a : Action) : Db :=
  match a with
  | InsertUser u => insert_user db u
  | InsertEvent e => insert_event db e
  | AddTicket clock new_id bearer eventId nama harga kuota =>
      out_db (add_ticket_handler clock new_id db bearer eventId nama
                                 harga kuota)
  | Register w bearer eventId tiket_tipe_id =>
      out_db (register_handler w db bearer eventId tiket_tipe_id)
  | ConfirmPayment clock bearer registrasiId =>
      out_db (confirm_payment_handler clock db bearer registrasiId)
  | PaymentNotification gateway =>
      out_db (notification_handler gateway db)
  end.


End Handlers.

(** ** Ledger measures and the consistency of a database *)

(** Rows of a ticket type that are not cancelled. *)
Definition non_cancelled_count (db : Db) (tiket_tipe_id : Z) : Z :=
  Z.of_nat
    (List.length
       (filter (fun r => (r_tiket_tipe_id r =? tiket_tipe_id)
                         && negb (Status_eqb (r_status_pembayaran r) BATAL))
               (tbl_Registrasi db))).

(** Who registered for what: the key the duplicate check looks at. *)
Definition attendance (r : Registrasi) : Z * Z := (r_user_id r, r_event_id r).


(** ** Predicates on strings used in the statements *)

Fixpoint all_digits (s : string) : bool :=
  match s with
  | EmptyString => true
  | String c rest => Pg.is_digit c && all_digits rest
  end.

Fixpoint dash_free (s : string) : bool :=
  match s with
  | EmptyString => true
  | String c rest => negb (Ascii.eqb c "-") && dash_free rest
  end.

(** ** Example data

    One organizer, two attendees, one event with a free and a paid ticket
    type of one seat each.  In [ledger st] Alice holds the paid seat with
    payment status [st]. *)

Module Example.

Definition secret : string := "access-secret-of-at-least-32-chars!".
Definition refresh_secret : string := "refresh-secret-of-at-least-32-chars".

Definition organizer : User :=
  mkUser 10 "acme@example.com" "$2a$12$hash" "Acme" ORGANISASI.
Definition alice : User :=
  mkUser 2 "alice@example.com" "$2a$12$hash" "Alice" PESERTA.
Definition bob : User :=
  mkUser 3 "bob@example.com" "$2a$12$hash" "Bob" PESERTA.

Definition techfest : Event :=
  mkEvent 1 "TechFest" "A campus technology fair" "Aula" 10.

Definition free_entry : TiketTipe := mkTiketTipe 1 1 "Free Entry" 0 1.
Definition vip : TiketTipe := mkTiketTipe 2 1 "VIP" 50000 1.

(** Access tokens issued at time 1000, verified at time 2000. *)
Definition token_of (u : User) : Jwt.Token :=
  Jwt.sign (access_payload u) secret 1000 one_hour.

Definition clock : Z := 2000.

Definition world (new_id : Z) : RegisterWorld :=
  mkRegisterWorld clock 1700000000000 new_id 1700000000001
                  (fun _ => Some "snap-token-66e4fa55").

Definition catalog : Db :=
  mkDb [organizer; alice; bob] [techfest] [free_entry; vip] [].

Definition alice_row (st : StatusPembayaran) : Registrasi :=
  mkRegistrasi 1 1 2 2 st "EVT-1-USR-2-1700000000000".

Definition ledger (st : StatusPembayaran) : Db :=
  with_registrasi catalog [alice_row st].

Definition alice_order : string := "ORDER-1-1700000000001".

Definition gateway_says (transaction_status : string)
  : option StatusResponse :=
  Some (mkStatusResponse (Some alice_order) (Some transaction_status) None).




(** Refresh tokens issued at time 1000 for seven days. *)
Definition refresh_token_for (userId : Z) : Jwt.Token :=
  Jwt.sign (Jwt.mkPayload userId None None (Some "refresh")) refresh_secret
           1000 604800.

(** What Bob's registration for the paid ticket sends to the gateway when
    the database gives his row the id 1. *)
Definition bob_parameter : SnapParameter :=
  mkSnapParameter "ORDER-1-1700000000001" 50000 "bob@example.com" "Bob"
                  2 50000 1 "TechFest - VIP".

Definition bob_pendaftaran : Pendaftaran :=
  mkPendaftaran 1 PENDING "EVT-1-USR-3-1700000000000".

Definition alice_pendaftaran : Pendaftaran :=
  mkPendaftaran 1 PENDING "EVT-1-USR-2-1700000000000".

End Example.

From Stdlib Require Import Permutation Sorted.

(** ** Further measures used in the statements *)

(** Every character of the string satisfies the test. *)
Fixpoint every (P : ascii -> bool) (s : string) : bool :=
  match s with
  | EmptyString => true
  | String c rest => P c && every P rest
  end.

(** The columns of a ledger row that no statement of the API updates. *)
Definition stable_columns (r : Registrasi) : Z * Z * Z * Z * string :=
  (r_id r, r_event_id r, r_user_id r, r_tiket_tipe_id r, r_qr_code_unik r).



(** [grows db db']: every table of [db'] starts with the rows of [db], the
    ledger rows up to their payment status. *)
Definition grows (db db' : Db) : Prop :=
  (exists added, tbl_User db' = (tbl_User db ++ added)%list)
  /\ (exists added, tbl_Event db' = (tbl_Event db ++ added)%list)
  /\ (exists added, tbl_TiketTipe db' = (tbl_TiketTipe db ++ added)%list)
  /\ (exists added,
         map stable_columns (tbl_Registrasi db')
         = (map stable_columns (tbl_Registrasi db) ++ added)%list).


(** ** Further routes of the API

    The routes below answer with data.  A JavaScript string is taken as the
    sequence of its characters, each within one byte.  Library functions the
    handlers call on their input (validator.js, bcryptjs) are parameters of
    the model.  As for the routes above, a handler is described from the
    point where the rate limiters have let the request through. *)

(** An answer: an error as before, or a status with the data returned. *)
Inductive Reply (A : Type) : Type :=
| Refused (resp : Response)
| Served (code : Z) (data : A).

Arguments Refused {A} resp.
Arguments Served {A} code data.

Definition reply_status {A} (r : Reply A) : Z :=
  match r with
  | Refused resp => status resp
  | Served code _ => code
  end.

Record Library := mkLibrary {
  isEmail : string -> bool;              (* validator.js *)
  normalizeEmail : string -> string;     (* validator.js *)
  isISO8601 : string -> bool;            (* validator.js *)
  toLowerCase : string -> string;        (* String.prototype.toLowerCase *)
  bcrypt_hash : string -> string -> string;   (* password, salt *)
  bcrypt_compare : string -> string -> bool   (* password, stored hash *)
}.

(** Some character of the string satisfies the test. *)
Fixpoint some (P : ascii -> bool) (s : string) : bool :=
  match s with
  | EmptyString => false
  | String c rest => P c || some P rest
  end.

Definition is_lower (c : ascii) : bool :=
  let n := Ascii.N_of_ascii c in (97 <=? n)%N && (n <=? 122)%N.

Definition is_upper (c : ascii) : bool :=
  let n := Ascii.N_of_ascii c in (65 <=? n)%N && (n <=? 90)%N.

Definition is_line_end (c : ascii) : bool :=
  match Ascii.N_of_ascii c with
  | 10%N | 13%N => true
  | _ => false
  end.

(** What [.*] can run over from the start of the string. *)
Fixpoint first_line (s : string) : string :=
  match s with
  | EmptyString => EmptyString
  | String c rest =>
      if is_line_end c then EmptyString else String c (first_line rest)
  end.

(** [isLength({ min: 8 })] and
    [matches(/^(?=.*[a-z])(?=.*[A-Z])(?=.*\d)/)]. *)
Definition password_policy (password : string) : bool :=
  (8 <=? String.length password)%nat
  && some is_lower (first_line password)
  && some is_upper (first_line password)
  && some Pg.is_digit (first_line password).

Definition role_of_string (s : string) : option Role :=
  if String.eqb s "PESERTA" then Some PESERTA
  else if String.eqb s "ORGANISASI" then Some ORGANISASI
  else None.

(** [isValidRole], on a role that may be absent from the body. *)
Definition isValidRole (role : option string) : bool :=
  match role with
  | Some s => match role_of_string s with Some _ => true | None => false end
  | None => false
  end.

Section AuthRoutes.

Variables JWT_SECRET JWT_REFRESH_SECRET : string.
Variable lib : Library.

(** *** POST /api/auth/register *)

(** The validation chain of the route; [nama_lengkap] is the field after its
    [trim()], and an absent [role] is accepted. *)
Definition register_validation (email password nama_lengkap : string)
           (role : option string) : bool :=
  isEmail lib email
  && password_policy password
  && (3 <=? String.length nama_lengkap)%nat
  && (String.length nama_lengkap <=? 100)%nat
  && match role with
     | Some s => isValidRole (Some s)
     | None => true
     end.

(** The address as stored and looked up: normalised by the validation
    chain, lower-cased and sanitised by the handler. *)
Definition stored_email (email : string) : string :=
  sanitizeInput (toLowerCase lib (normalizeEmail lib email)).

(** [role && isValidRole(role) ? role : 'PESERTA']. *)
Definition userRole (role : option string) : Role :=
  match role with
  | Some s => match role_of_string s with
              | Some r => r
              | None => PESERTA
              end
  | None => PESERTA
  end.

(** [INSERT INTO "User" ... RETURNING id, email, nama_lengkap, role]; the
    e-mail column is unique and the id is the key. *)
Definition insertUserQuery (db : Db) (new_id : Z) (email hashed nama : string)
           (role : Role) : option (Db * User) :=
  if existsb (fun u => String.eqb (u_email u) email || (u_id u =? new_id)%Z)
             (tbl_User db)
  then None
  else
    let userBaru := mkUser new_id email hashed nama role in
    Some (mkDb (tbl_User db ++ [userBaru])%list (tbl_Event db)
               (tbl_TiketTipe db) (tbl_Registrasi db),
          userBaru).

Definition auth_register_handler (new_id : Z) (salt : string) (db : Db)
           (email password nama_lengkap : string) (role : option string)
  : Db * Reply UserPublic * list Effect :=
  if negb (register_validation email password nama_lengkap role)
  then (db, Refused validation_failed, [])
  else
    let email' := stored_email email in
    let nama := sanitizeInput nama_lengkap in
    let hashedPassword := bcrypt_hash lib password salt in
    match insertUserQuery db new_id email' hashedPassword nama
                          (userRole role) with
    | None =>
        (db, Refused (mkResponse 400 (BMessage "Email ini sudah terdaftar.")),
         [])
    | Some (db', userBaru) =>
        (db', Served 201 (public_user userBaru),
         [ConsoleLog "[AUDIT] New user registered"])
    end.

(** *** POST /api/auth/login *)

Definition login_validation (email password : string) : bool :=
  isEmail lib email && negb (String.eqb password "").

Definition emailQuery (db : Db) (email : string) : list User :=
  filter (fun u => String.eqb (u_email u) email) (tbl_User db).

Definition seven_days : Z := 604800.

Definition refresh_payload (user : User) : Jwt.Payload :=
  Jwt.mkPayload (u_id user) None None (Some "refresh").

Definition wrong_credentials : Response :=
  mkResponse 401 (BMessage "Email atau password salah").

Definition login_handler (clock : Z) (db : Db) (email password : string)
  : Db * Reply (Jwt.Token * Jwt.Token * UserPublic) * list Effect :=
  if negb (login_validation email password)
  then (db, Refused validation_failed, [])
  else
    match emailQuery db (stored_email email) with
    | [] =>
        (db, Refused wrong_credentials,
         [ConsoleLog "[SECURITY] Failed login attempt"])
    | user :: _ =>
        if negb (bcrypt_compare lib password (u_password user))
        then (db, Refused wrong_credentials,
              [ConsoleLog "[SECURITY] Failed password"])
        else
          (db,
           Served 200
             (Jwt.sign (access_payload user) JWT_SECRET clock one_hour,
              Jwt.sign (refresh_payload user) JWT_REFRESH_SECRET clock
                       seven_days,
              public_user user),
           [ConsoleLog "[AUDIT] Successful login"])
    end.

(** *** GET /api/organisasi/my-events/:eventId/attendees *)

Record Attendee := mkAttendee {
  at_registrasi_id : Z;
  at_status_pembayaran : StatusPembayaran;
  at_nama_lengkap : string;
  at_email : string;
  at_nama_tiket : string;
  at_harga : Z
}.

Definition attendeesQuery (db : Db) (eventId : Z) : list Attendee :=
  flat_map
    (fun r =>
       flat_map
         (fun u =>
            map (fun tt =>
                   mkAttendee (r_id r) (r_status_pembayaran r)
                              (u_nama_lengkap u) (u_email u)
                              (tt_nama_tiket tt) (tt_harga tt))
                (filter (fun tt => (r_tiket_tipe_id r =? tt_id tt)%Z)
                        (tbl_TiketTipe db)))
         (filter (fun u => (r_user_id r =? u_id u)%Z) (tbl_User db)))
    (filter (fun r => (r_event_id r =? eventId)%Z) (tbl_Registrasi db)).

End AuthRoutes.

(** ** Sample library functions, for the examples

    Stand-ins with the interface of the library functions: an address is
    valid when it contains an at sign, normalising and lower-casing leave
    the sample addresses as they are, and the hash is the salt followed by
    the password. *)

Module Sample.

Definition is_at (c : ascii) : bool := Ascii.eqb c "@".

Definition hash (password salt : string) : string := salt ++ password.

Definition compare (password stored : string) : bool :=
  String.eqb (substring (String.length stored - String.length password)
                        (String.length password) stored)
             password.

Definition library : Library :=
  mkLibrary (some is_at) (fun s => s)
            (fun s => negb (String.eqb s ""))
            (fun s => s) hash compare.

Definition salt : string := "$2a$12$abcdefghijklmnopqrstuv".

Definition carol_email : string := "carol@example.com".
Definition carol_password : string := "Passw0rd".

End Sample.

(** *** GET /api/events/:id *)

Record EventDetail := mkEventDetail {
  ed_event : Event;
  ed_nama_organisasi : string;
  ed_tickets : list TiketTipe
}.

Definition eventQuery (db : Db) (id : Z) : list (Event * User) :=
  flat_map
    (fun e =>
       map (fun u => (e, u))
           (filter (fun u => (e_created_by_user_id e =? u_id u)
                             && (e_id e =? id))%Z
                   (tbl_User db)))
    (tbl_Event db).

(** [ORDER BY harga ASC], as an insertion sort; rows of equal price, whose
    order the database does not promise, keep their table order. *)
Fixpoint insert_by_harga (t : TiketTipe) (l : list TiketTipe)
  : list TiketTipe :=
  match l with
  | [] => [t]
  | x :: rest =>
      if (tt_harga t <=? tt_harga x)%Z then t :: l
      else x :: insert_by_harga t rest
  end.

Definition order_by_harga (l : list TiketTipe) : list TiketTipe :=
  fold_right insert_by_harga [] l.

Definition ticketsQuery (db : Db) (id : Z) : list TiketTipe :=
  order_by_harga
    (filter (fun t => (tt_event_id t =? id)%Z) (tbl_TiketTipe db)).

(** ** The browser client of the API (services/api.ts)

    [localStorage] is a map from keys to strings; a response carries its
    status and, when its body is JSON, the fields the client reads from it.
    The body of a response can be read once: a second [response.json()]
    rejects. *)

Module Client.

Definition Storage : Type := string -> option string.

Definition getItem (st : Storage) (key : string) : option string := st key.

Definition setItem (st : Storage) (key value : string) : Storage :=
  fun k => if String.eqb k key then Some value else st k.

Definition removeItem (st : Storage) (key : string) : Storage :=
  fun k => if String.eqb k key then None else st k.

Record Json := mkJson {
  j_expired : bool;             (* the [expired] field is truthy *)
  j_message : option string;
  j_token : option string;
  j_user : option string        (* [JSON.stringify] of the [user] field *)
}.

Record HttpResponse := mkHttpResponse {
  h_status : Z;
  h_json : option Json          (* [None]: the body is not JSON *)
}.

Definition ok (response : HttpResponse) : bool :=
  (200 <=? h_status response)%Z && (h_status response <=? 299)%Z.

(** What the page sees of a call besides its result. *)
Inductive ClientEffect :=
| FetchRefresh (refreshToken : string)   (* POST /auth/refresh *)
| Redirect (href : string)
| ClientLog (line : string)
| ClientError (line : string).

(** [localStorage.setItem(key, value)] turns a missing value into the
    string "undefined". *)
Definition or_undefined (value : option string) : string :=
  match value with
  | Some v => v
  | None => "undefined"
  end.

Definition truthy (value : option string) : bool :=
  match value with
  | Some v => negb (String.eqb v "")
  | None => false
  end.

(** [network] answers the refresh request, or throws ([None]). *)
Definition refreshAccessToken (network : string -> option HttpResponse)
           (st : Storage) : Storage * bool * list ClientEffect :=
  let refreshToken := getItem st "refreshToken" in
  if negb (truthy refreshToken) then (st, false, [])
  else
    let sent := FetchRefresh (or_undefined refreshToken) in
    let failed := ClientError "Token refresh failed" in
    match network (or_undefined refreshToken) with
    | None => (st, false, [sent; failed])
    | Some response =>
        if negb (ok response) then (st, false, [sent])
        else
          match h_json response with
          | None => (st, false, [sent; failed])
          | Some data =>
              (setItem (setItem st "token" (or_undefined (j_token data)))
                       "user" (or_undefined (j_user data)),
               true,
               [sent; ClientLog "Token refreshed successfully"])
          end
    end.

Definition logout (st : Storage) : Storage * list ClientEffect :=
  (removeItem (removeItem (removeItem st "token") "refreshToken") "user",
   [Redirect "/"]).

Inductive Result :=
| Returned (data : Json)
| Rejected                      (* the body of an ok response is not JSON *)
| Thrown (message : string).

Definition session_expired : string :=
  "Sesi Anda telah berakhir. Silakan login kembali.".

(** The tail of [handleResponse]; [body] is what [response.json()] gives at
    that point: [None] when the body is not JSON or was read before. *)
Definition finish (response : HttpResponse) (body : option Json) : Result :=
  if negb (ok response) then
    let message :=
      match body with
      | Some error => j_message error
      | None => Some "Terjadi kesalahan"
      end in
    Thrown (if truthy message then or_undefined message
            else "HTTP error! status: "
                 ++ Js.number_to_string (h_status response))
  else
    match body with
    | Some data => Returned data
    | None => Rejected
    end.

Definition handleResponse (network : string -> option HttpResponse)
           (st : Storage) (response : HttpResponse) (retryWithRefresh : bool)
  : Storage * Result * list ClientEffect :=
  if (h_status response =? 401)%Z && retryWithRefresh then
    let expired :=
      match h_json response with
      | Some errorData => j_expired errorData
      | None => false
      end in
    if expired then
      let '(st1, refreshed, fx) := refreshAccessToken network st in
      if refreshed then (st1, Thrown "TOKEN_REFRESHED", fx)
      else
        let (st2, fx2) := logout st1 in
        (st2, Thrown session_expired, (fx ++ fx2)%list)
    else
      (* the body has been read: reading it again fails *)
      (st, finish response None, [])
  else (st, finish response (h_json response), []).

End Client.

(** ** The routes as the server receives them

    The handlers above are given the ids of a request as integers and run on
    one state of the database.  The definitions of this part take a request
    as it arrives:
    - an id in the URL is the text of its path segment, and a field of the
      JSON body is the text node-postgres sends for it ([None] when it sends
      NULL, for a field that is absent or null); a text the database does
      not accept for an [integer] parameter makes the statement throw, which
      the handler's [catch] answers with 500;
    - a handler runs its statements one [await] at a time and outside any
      transaction, so each statement finds the database as the other
      requests have left it in the meantime: a route is given, for each
      [await] after its first statement, what the others wrote there. *)

(** An [integer] parameter as the database binds it. *)
Inductive Param :=
| PNull
| PInt (z : Z).

(** [None]: the database rejects the text. *)
Definition bind_text (text : option string) : option Param :=
  match text with
  | None => Some PNull
  | Some s => option_map PInt (Pg.int4_in s)
  end.

(** A JavaScript integer is sent as its decimal text, which the database
    accepts exactly within the 32-bit range. *)
Definition bind_number (z : Z) : option Z :=
  if ((Pg.int4_min <=? z) && (z <=? Pg.int4_max))%Z then Some z else None.

(** The request to [snap.createTransaction], with the ticket type id as the
    body gave it. *)
Record Transaction := mkTransaction {
  tr_order_id : string;
  tr_gross_amount : Z;
  tr_email : string;
  tr_first_name : string;
  tr_item_id : option string;
  tr_item_price : Z;
  tr_item_quantity : Z;
  tr_item_name : string
}.

(** What a registration request leaves behind. *)
Record Handled := mkHandled {
  rt_db : Db;                       (* the database after its last statement *)
  rt_response : Response;
  rt_console : list Effect;         (* the lines it printed *)
  rt_gateway : option Transaction   (* what it asked the gateway, if it did *)
}.

(** What the outside supplies during one registration request: the clock
    readings, the id the database assigns, the gateway's answer (a token, or
    [None] for an exception), and what the other requests do to the database
    between two statements of this one. *)
Record RegisterCall := mkRegisterCall {
  rc_clock : Z;
  rc_now_qr : Z;
  rc_new_id : Z;
  rc_now_order : Z;
  rc_createTransaction : Transaction -> option string;
  rc_before_check : Db -> Db;    (* after the ticket lookup *)
  rc_before_count : Db -> Db;    (* after the duplicate check *)
  rc_before_insert : Db -> Db;   (* after the count *)
  rc_before_user : Db -> Db      (* after the insertion *)
}.

(** No other request writes while this one runs. *)
Definition alone (clock now_qr new_id now_order : Z)
           (gateway : Transaction -> option string) : RegisterCall :=
  mkRegisterCall clock now_qr new_id now_order gateway
                 (fun db => db) (fun db => db) (fun db => db) (fun db => db).

Definition ticket_not_found : Response :=
  mkResponse 404 (BMessage "Tipe tiket tidak valid untuk event ini").

Definition already_registered : Response :=
  mkResponse 400 (BMessage "Anda sudah terdaftar di event ini").

Definition sold_out : Response :=
  mkResponse 400 (BMessage "Maaf, tiket untuk tipe ini sudah habis").

Section Routes.

Variable JWT_SECRET : string.

(** *** POST /api/events/:eventId/register *)

(** [EVT-${eventId}-USR-${userId}-${Date.now()}], with the path segment as
    it stands in the URL. *)
Definition qrCodeUnik (eventId : string) (userId now : Z) : string :=
  "EVT-" ++ eventId ++ "-USR-" ++ Js.number_to_string userId ++ "-"
         ++ Js.number_to_string now.

Definition transaction_request (pendaftaranBaru : Pendaftaran) (now : Z)
           (tiket_tipe_id : option string) (tiketData : TiketTipe * Event)
           (userData : User) : Transaction :=
  mkTransaction
    (make_order_id (pb_id pendaftaranBaru) now)
    (tt_harga (fst tiketData))
    (u_email userData)
    (u_nama_lengkap userData)
    tiket_tipe_id
    (tt_harga (fst tiketData))
    1
    (e_nama_event (snd tiketData) ++ " - " ++ tt_nama_tiket (fst tiketData)).

Definition registered (message : string) (pendaftaranBaru : Pendaftaran)
           (paymentToken : option string) (harga : Z) : Response :=
  mkResponse 201
    (BRegistered message pendaftaranBaru paymentToken
                 (payment_url paymentToken) (harga =? 0)%Z).

Definition register_route (c : RegisterCall) (db : Db)
           (bearer : option Jwt.Token) (eventId : string)
           (tiket_tipe_id : option string) : Handled :=
  match authenticateToken JWT_SECRET (rc_clock c) bearer with
  | inl (resp, fx) => mkHandled db resp fx None
  | inr user =>
    let userId := Jwt.p_userId user in
    let dbg := ConsoleLog "[DEBUG] User mendaftar ke event" in
    let err := ConsoleError "--- ERROR SAAT POST /api/events/register" in
    match Pg.int4_in eventId, bind_text tiket_tipe_id with
    | Some e, Some (PInt t) =>
      match tiketQuery db t e with
      | [] => mkHandled db ticket_not_found [dbg] None
      | tiketData :: _ =>
        let db1 := rc_before_check c db in
        match bind_number userId with
        | None => mkHandled db1 server_error [dbg; err] None
        | Some u =>
          if (0 <? Z.of_nat (List.length (registrasiCheckQuery db1 u e)))%Z
          then mkHandled db1 already_registered [dbg] None
          else
            let db2 := rc_before_count c db1 in
            let jumlahTerdaftar := countQuery db2 t in
            if (tt_kuota (fst tiketData) <=? jumlahTerdaftar)%Z
            then mkHandled db2 sold_out [dbg] None
            else
              let db3 := rc_before_insert c db2 in
              match insertRegistrasiQuery db3 (rc_new_id c) e u t PENDING
                      (qrCodeUnik eventId userId (rc_now_qr c)) with
              | None => mkHandled db3 server_error [dbg; err] None
              | Some (db4, pendaftaranBaru) =>
                let harga := tt_harga (fst tiketData) in
                let ok := ConsoleLog "[SUCCESS] User berhasil mendaftar" in
                if (0 <? harga)%Z then
                  let db5 := rc_before_user c db4 in
                  match userQuery db5 u with
                  | [] => mkHandled db5 server_error [dbg; err] None
                  | userData :: _ =>
                    let parameter :=
                      transaction_request pendaftaranBaru (rc_now_order c)
                                          tiket_tipe_id tiketData userData in
                    match rc_createTransaction c parameter with
                    | None =>
                        mkHandled db5 server_error [dbg; err] (Some parameter)
                    | Some token =>
                        mkHandled db5
                          (registered
                             "Pendaftaran berhasil! Silakan selesaikan pembayaran."
                             pendaftaranBaru (Some token) harga)
                          [dbg; ok] (Some parameter)
                    end
                  end
                else
                  mkHandled db4
                    (registered "Pendaftaran berhasil!" pendaftaranBaru None
                                harga)
                    [dbg; ok] None
              end
        end
      end
    | Some e, Some PNull => mkHandled db ticket_not_found [dbg] None
    | _, _ => mkHandled db server_error [dbg; err] None
    end
  end.

(** The request to the gateway as [register_handler] records it, with the
    ticket type id as the integer [t] it denotes. *)
Definition as_parameter (t : Z) (tr : Transaction) : SnapParameter :=
  mkSnapParameter (tr_order_id tr) (tr_gross_amount tr) (tr_email tr)
                  (tr_first_name tr) t (tr_item_price tr)
                  (tr_item_quantity tr) (tr_item_name tr).

(** The registration [w] describes, with nobody else writing meanwhile. *)
Definition alone_in (w : RegisterWorld) (t : Z) : RegisterCall :=
  alone (rw_clock w) (rw_now_qr w) (rw_new_id w) (rw_now_order w)
        (fun tr => rw_createTransaction w (as_parameter t tr)).

(** The row a request inserts. *)
Definition route_row (c : RegisterCall) (eventId : string) (e u t : Z)
           (userId : Z) : Registrasi :=
  mkRegistrasi (rc_new_id c) e u t PENDING
               (qrCodeUnik eventId userId (rc_now_qr c)).

(** *** POST /api/events/:eventId/tickets

    [between] is what the other requests write between the two statements
    of the route, here and in the routes below.  [nama_tiket] is the field after its
    [trim()]; [harga] and [kuota] are the integers the two fields denote, [None] for a
    field that [isInt] does not accept; [isInt] sets no upper bound, and the
    insertion throws on a value beyond the range of the column. *)
Definition create_ticket_failed : list Effect :=
  [ConsoleError "[ERROR] Create ticket failed"].

Definition add_ticket_route (clock new_id : Z) (between : Db -> Db)
           (db : Db) (bearer : option Jwt.Token) (eventId : string)
           (nama_tiket : string) (harga kuota : option Z) : Outcome :=
  match authenticateToken JWT_SECRET clock bearer with
  | inl (resp, fx) => (db, resp, fx)
  | inr user =>
    match requireRole [ORGANISASI] user with
    | Some (resp, fx) => (db, resp, fx)
    | None =>
      match harga, kuota with
      | Some h, Some k =>
        if negb (ticket_validation nama_tiket h k)
        then (db, validation_failed, [])
        else
          let organizationUserId := Jwt.p_userId user in
          let nama := sanitizeInput nama_tiket in
          match Pg.int4_in eventId with
          | None => (db, server_error, create_ticket_failed)
          | Some e =>
            match eventCheckQuery db e with
            | [] =>
                (db, mkResponse 404 (BMessage "Event tidak ditemukan"), [])
            | ev :: _ =>
              if negb (e_created_by_user_id ev =? organizationUserId)%Z
              then (db,
                    mkResponse 403
                      (BMessage "Akses ditolak: Anda bukan pemilik event ini"),
                    [ConsoleLog
                       "[SECURITY] Unauthorized ticket creation attempt"])
              else
                let db1 := between db in
                if ((h <=? Pg.int4_max) && (k <=? Pg.int4_max))%Z then
                  match insertTicketQuery db1 new_id e nama h k with
                  | None => (db1, server_error, create_ticket_failed)
                  | Some (db2, tiketBaru) =>
                      (db2, mkResponse 201 (BTicket tiketBaru),
                       [ConsoleLog "[AUDIT] Ticket created"])
                  end
                else (db1, server_error, create_ticket_failed)
            end
          end
      | _, _ => (db, validation_failed, [])
      end
    end
  end.

(** *** PATCH /api/organisasi/confirm-payment/:registrasiId *)

Definition confirm_payment_route (clock : Z) (between : Db -> Db)
           (db : Db) (bearer : option Jwt.Token) (registrasiId : string)
  : Outcome :=
  match authenticateToken JWT_SECRET clock bearer with
  | inl (resp, fx) => (db, resp, fx)
  | inr user =>
    match requireRole [ORGANISASI] user with
    | Some (resp, fx) => (db, resp, fx)
    | None =>
      let organizationUserId := Jwt.p_userId user in
      match Pg.int4_in registrasiId with
      | None =>
          (db, server_error,
           [ConsoleError "[ERROR] Payment confirmation failed"])
      | Some id =>
        match verificationQuery db id with
        | [] =>
            (db, mkResponse 404
                   (BMessage "Data pendaftaran tidak ditemukan"), [])
        | row :: _ =>
          if negb (fst row =? organizationUserId)%Z
          then (db,
                mkResponse 403
                  (BMessage
                     "Akses ditolak: Anda tidak berhak mengkonfirmasi pendaftaran ini"),
                [ConsoleLog
                   "[SECURITY] Unauthorized payment confirmation attempt"])
          else
            let (db2, rows) := updateStatusQuery (between db) LUNAS id in
            (db2,
             mkResponse 200
               (BConfirmed
                  (option_map (fun r => (r_id r, r_status_pembayaran r))
                              (hd_error rows))),
             [ConsoleLog "[AUDIT] Payment confirmed"])
        end
      end
    end
  end.

(** *** GET /api/organisasi/my-events/:eventId/attendees *)

Definition attendees_route (clock : Z) (between : Db -> Db) (db : Db)
           (bearer : option Jwt.Token) (eventId : string)
  : Reply (list Attendee) * list Effect :=
  match authenticateToken JWT_SECRET clock bearer with
  | inl (resp, fx) => (Refused resp, fx)
  | inr user =>
    match requireRole [ORGANISASI] user with
    | Some (resp, fx) => (Refused resp, fx)
    | None =>
      match Pg.int4_in eventId with
      | None =>
          (Refused server_error,
           [ConsoleError "[ERROR] Get attendees failed"])
      | Some e =>
        match eventCheckQuery db e with
        | [] =>
            (Refused (mkResponse 404 (BMessage "Event tidak ditemukan")), [])
        | ev :: _ =>
          if negb (e_created_by_user_id ev =? Jwt.p_userId user)%Z
          then (Refused
                  (mkResponse 403
                     (BMessage "Akses ditolak: Anda bukan pemilik event ini")),
                [ConsoleLog
                   "[SECURITY] Unauthorized attendees access attempt"])
          else (Served 200 (attendeesQuery (between db) e), [])
        end
      end
    end
  end.

End Routes.

(** *** GET /api/events/:id *)

Definition event_detail_route (between : Db -> Db) (db : Db) (id : string)
  : Reply EventDetail * list Effect :=
  let dbg := ConsoleLog "[DEBUG] Menerima request ke GET /api/events/:id" in
  match Pg.int4_in id with
  | None =>
      (Refused server_error,
       [dbg; ConsoleError "--- ERROR SAAT GET /api/events/:id (FULL) ---"])
  | Some n =>
    match eventQuery db n with
    | [] =>
        (Refused (mkResponse 404 (BMessage "Event tidak ditemukan")),
         [dbg; ConsoleLog "[DEBUG] Event dengan ID tidak ditemukan"])
    | eventData :: _ =>
        (Served 200
           (mkEventDetail (fst eventData) (u_nama_lengkap (snd eventData))
                          (ticketsQuery (between db) n)),
         [dbg])
    end
  end.

(** ** Sample requests to the routes *)

Module Interleaved.

Import Example.

(** A registration during which nobody else writes. *)
Definition call (new_id : Z) : RegisterCall :=
  alone clock 1700000000000 new_id 1700000000001
        (fun _ => Some "snap-token-66e4fa55").

(** Another registration, handled from its first statement to its last
    between two statements of the request under study. *)
Definition meanwhile (c : RegisterCall) (bearer : option Jwt.Token)
           (eventId : string) (tiket_tipe_id : option string) : Db -> Db :=
  fun db => rt_db (register_route secret c db bearer eventId tiket_tipe_id).

(** Bob asks for the free ticket; after he has counted and before he
    inserts, Alice's request for the same ticket is handled. *)
Definition bob_overtaken : RegisterCall :=
  mkRegisterCall clock 1700000000000 2 1700000000001
                 (fun _ => Some "snap-token-66e4fa55")
                 (fun db => db) (fun db => db)
                 (meanwhile (call 1) (Some (token_of alice)) "1" (Some "1"))
                 (fun db => db).

(** Alice asks for the paid ticket; after her request has looked for a row
    of hers and before it counts, her other request, for the free ticket,
    is handled. *)
Definition alice_twice : RegisterCall :=
  mkRegisterCall clock 1700000000000 2 1700000000001
                 (fun _ => Some "snap-token-66e4fa55")
                 (fun db => db)
                 (meanwhile (call 1) (Some (token_of alice)) "1" (Some "1"))
                 (fun db => db) (fun db => db).

(** A token whose user id is beyond the range of the column. *)
Definition stranger : Jwt.Token :=
  Jwt.sign (Jwt.mkPayload 2147483648 (Some "eve@example.com") (Some PESERTA)
                          None)
           secret 1000 one_hour.

End Interleaved.

(** ** Auxiliary facts about lists and the queries *)

Lemma length_zero_nil {A} (l : list A) :
  (0 <? Z.of_nat (List.length l))%Z = false -> l = [].
Proof.
  destruct l as [|x l]; [reflexivity|].
  cbn [List.length]. intros H. apply Z.ltb_ge in H. lia.
Qed.






(** The status update rewrites one column and nothing else. *)
Lemma set_status_keys st target r :
  r_id (set_status st target r) = r_id r /\
  r_event_id (set_status st target r) = r_event_id r /\
  r_user_id (set_status st target r) = r_user_id r /\
  r_tiket_tipe_id (set_status st target r) = r_tiket_tipe_id r /\
  r_qr_code_unik (set_status st target r) = r_qr_code_unik r.
Proof.
  unfold set_status. destruct (r_id r =? target)%Z; cbn; auto.
Qed.

Lemma map_set_status_proj {B} (f : Registrasi -> B) st target rows :
  (forall r, f (set_status st target r) = f r) ->
  map f (map (set_status st target) rows) = map f rows.
Proof.
  intros H. rewrite map_map. apply map_ext. auto.
Qed.



(** ** Shape of the handlers' outcomes *)

Section Shapes.

Variable JWT_SECRET : string.

(** A registration request is either turned down by one of the checks
    (no write, no gateway call, status 400, 401, 403 or 404), or it passed
    the three checks; then the insertion either fails on the primary key
    (500, no write) or appends one PENDING row. *)
Lemma register_handler_shape w db bearer eventId tiket_tipe_id :
  let o := register_handler JWT_SECRET w db bearer eventId tiket_tipe_id in
  (out_db o = db
   /\ filter is_gateway_call (out_effects o) = []
   /\ In (status (out_response o)) [400; 401; 403; 404])
  \/ (exists user tiketData rest,
        authenticateToken JWT_SECRET (rw_clock w) bearer = inr user
        /\ tiketQuery db tiket_tipe_id eventId = tiketData :: rest
        /\ registrasiCheckQuery db (Jwt.p_userId user) eventId = []
        /\ countQuery db tiket_tipe_id < tt_kuota (fst tiketData)
        /\ ((out_db o = db
             /\ filter is_gateway_call (out_effects o) = []
             /\ status (out_response o) = 500)
            \/ (existsb (fun r => r_id r =? rw_new_id w) (tbl_Registrasi db)
                = false
                /\ out_db o =
                   with_registrasi db
                     (tbl_Registrasi db ++
                      [new_row w (Jwt.p_userId user) eventId tiket_tipe_id])
                /\ In (status (out_response o)) [201; 500]))).
Proof.
  cbv zeta. unfold register_handler.
  destruct (authenticateToken JWT_SECRET (rw_clock w) bearer)
    as [[resp fx]|user] eqn:Eauth.
  - left. unfold authenticateToken in Eauth.
    destruct bearer as [[k p e|[|c raw]]|]; cbn in Eauth;
      try destruct (String.eqb k JWT_SECRET);
      try destruct (e <=? rw_clock w);
      inversion Eauth; subst; cbn; intuition.
  - destruct (tiketQuery db tiket_tipe_id eventId) as [|tiketData rest] eqn:Et.
    { left. cbn. intuition. }
    destruct (0 <? Z.of_nat (List.length
               (registrasiCheckQuery db (Jwt.p_userId user) eventId)))
      eqn:Edup.
    { left. cbn. intuition. }
    apply length_zero_nil in Edup.
    destruct (tt_kuota (fst tiketData) <=? countQuery db tiket_tipe_id)
      eqn:Ecap.
    { left. cbn. intuition. }
    apply Z.leb_gt in Ecap.
    right. exists user, tiketData, rest.
    repeat (split; [first [assumption|reflexivity]|]).
    unfold insertRegistrasiQuery.
    destruct (existsb (fun r => r_id r =? rw_new_id w) (tbl_Registrasi db))
      eqn:Efresh.
    { left. cbn. intuition. }
    right. split; [reflexivity|].
    destruct (0 <? tt_harga (fst tiketData)).
    + match goal with
      | |- context [userQuery ?d ?u] => destruct (userQuery d u) as [|userData ?]
      end.
      { cbn. intuition. }
      match goal with
      | |- context [rw_createTransaction w ?p] =>
          destruct (rw_createTransaction w p)
      end; cbn; intuition.
    + cbn. intuition.
Qed.

End Shapes.

(** ** Every reachable database is consistent *)








Section Preservation.

Variable JWT_SECRET : string.

Lemma confirm_payment_db clock db bearer registrasiId :
  let o := confirm_payment_handler JWT_SECRET clock db bearer registrasiId in
  out_db o = db
  \/ out_db o = with_registrasi db (map (set_status LUNAS registrasiId)
                                        (tbl_Registrasi db)).
Proof.
  cbv zeta. unfold confirm_payment_handler.
  destruct (authenticateToken JWT_SECRET clock bearer) as [[resp fx]|user];
    [now left|].
  destruct (requireRole [ORGANISASI] user) as [[resp fx]|]; [now left|].
  destruct (verificationQuery db registrasiId) as [|row rows]; [now left|].
  destruct (negb (fst row =? Jwt.p_userId user)); [now left|].
  right. reflexivity.
Qed.

Lemma notification_db gateway db :
  let o := notification_handler gateway db in
  out_db o = db
  \/ exists st target,
      out_db o = with_registrasi db (map (set_status st target)
                                         (tbl_Registrasi db)).
Proof.
  cbv zeta. unfold notification_handler.
  destruct gateway as [sr|]; [|now left].
  destruct (sr_order_id sr) as [orderId|]; [|now left].
  destruct (registrasiId_of_order orderId) as [s|]; [|now left].
  destruct (Pg.int4_in s) as [target|]; [|now left].
  right. eexists _, target. reflexivity.
Qed.

Lemma add_ticket_db clock new_id db bearer eventId nama harga kuota :
  let o := add_ticket_handler JWT_SECRET clock new_id db bearer eventId
                              nama harga kuota in
  out_db o = db
  \/ (1 <= kuota
      /\ existsb (fun t => tt_id t =? new_id) (tbl_TiketTipe db) = false
      /\ out_db o =
         mkDb (tbl_User db) (tbl_Event db)
              (tbl_TiketTipe db ++
               [mkTiketTipe new_id eventId (sanitizeInput nama) harga kuota])
              (tbl_Registrasi db)).
Proof.
  cbv zeta. unfold add_ticket_handler.
  destruct (authenticateToken JWT_SECRET clock bearer) as [[resp fx]|user];
    [now left|].
  destruct (requireRole [ORGANISASI] user) as [[resp fx]|]; [now left|].
  destruct (ticket_validation nama harga kuota) eqn:Ev; [|now left].
  cbn [negb].
  destruct (eventCheckQuery db eventId) as [|ev evs]; [now left|].
  destruct (negb (e_created_by_user_id ev =? Jwt.p_userId user));
    [now left|].
  unfold insertTicketQuery.
  destruct (existsb (fun t => tt_id t =? new_id) (tbl_TiketTipe db)) eqn:Ef;
    [now left|].
  right. split; [|split; [reflexivity|reflexivity]].
  unfold ticket_validation in Ev.
  apply andb_true_iff in Ev. destruct Ev as [_ Ev].
  now apply Z.leb_le in Ev.
Qed.





End Preservation.

(** ** The example databases are reachable *)







(** ** Registration: the status of a new row *)

Section Registration.

Variable JWT_SECRET : string.

(** Apart from the confirmation and the notification, no request changes a
    row that is already in the ledger. *)
Lemma writes_keep_rows db a :
  match a with
  | ConfirmPayment _ _ _ | PaymentNotification _ => True
  | _ =>
      exists added,
        tbl_Registrasi (step JWT_SECRET db a)
        = (tbl_Registrasi db ++ added)%list
  end.
Proof.
  destruct a as [u|e|clock new_id bearer eventId nama harga kuota
                 |w bearer eventId tiket| |]; cbn [step]; auto.
  - exists []. rewrite List.app_nil_r. unfold insert_user.
    destruct (existsb _ _); reflexivity.
  - exists []. rewrite List.app_nil_r. unfold insert_event.
    destruct (existsb _ _); reflexivity.
  - exists []. rewrite List.app_nil_r.
    destruct (add_ticket_db JWT_SECRET clock new_id db bearer eventId nama
                            harga kuota) as [->|(_ & _ & ->)]; reflexivity.
  - destruct (register_handler_shape JWT_SECRET w db bearer eventId tiket)
      as [(-> & _)|(user & td & rest & _ & _ & _ & _ &
                    [(-> & _)|(_ & -> & _)])].
    + exists []. now rewrite List.app_nil_r.
    + exists []. now rewrite List.app_nil_r.
    + eexists. reflexivity.
Qed.

(** C10: a row the registration request creates carries the status
    PENDING, also when the ticket is free and the response says
    [isFree = true]; the request leaves the rows already there as they
    are, so it never marks anything LUNAS, and no later request other than
    a confirmation or a gateway notification changes a row of the ledger. *)
Theorem register_inserts_pending w db bearer eventId tiket_tipe_id :
  let o := register_handler JWT_SECRET w db bearer eventId tiket_tipe_id in
  (tbl_Registrasi (out_db o) = tbl_Registrasi db
   \/ exists row,
       tbl_Registrasi (out_db o) = (tbl_Registrasi db ++ [row])%list
       /\ r_status_pembayaran row = PENDING)
  /\ (forall message pendaftaran paymentToken paymentUrl isFree,
        out_response o =
        mkResponse 201 (BRegistered message pendaftaran paymentToken
                                    paymentUrl isFree) ->
        pb_status_pembayaran pendaftaran = PENDING
        /\ exists row,
            tbl_Registrasi (out_db o) = (tbl_Registrasi db ++ [row])%list
            /\ r_id row = pb_id pendaftaran
            /\ r_status_pembayaran row = PENDING)
  /\ (forall a,
        match a with
        | ConfirmPayment _ _ _ | PaymentNotification _ => True
        | _ =>
            exists added,
              tbl_Registrasi (step JWT_SECRET db a)
              = (tbl_Registrasi db ++ added)%list
        end).
Proof.
  cbv zeta. split; [|split]; [| |apply writes_keep_rows].
  - destruct (register_handler_shape JWT_SECRET w db bearer eventId
                                     tiket_tipe_id)
      as [(-> & _)|(user & td & rest & _ & _ & _ & _ &
                    [(-> & _)|(_ & -> & _)])]; auto.
    right. eexists. split; reflexivity.
  - intros message pendaftaran paymentToken paymentUrl isFree.
    unfold register_handler.
    destruct (authenticateToken JWT_SECRET (rw_clock w) bearer)
      as [[resp fx]|user] eqn:Eauth.
    { unfold authenticateToken in Eauth.
      destruct bearer as [[k p e|[|c raw]]|]; cbn in Eauth;
        try destruct (String.eqb k JWT_SECRET);
        try destruct (e <=? rw_clock w);
        inversion Eauth; subst; cbn; discriminate. }
    destruct (tiketQuery db tiket_tipe_id eventId) as [|td rest];
      [cbn; discriminate|].
    destruct (0 <? _); [cbn; discriminate|].
    destruct (tt_kuota (fst td) <=? _); [cbn; discriminate|].
    unfold insertRegistrasiQuery.
    destruct (existsb _ _); [cbn; discriminate|].
    destruct (0 <? tt_harga (fst td)).
    + match goal with
      | |- context [userQuery ?d ?u] => destruct (userQuery d u) as [|userData ?]
      end; [cbn; discriminate|].
      match goal with
      | |- context [rw_createTransaction w ?p] =>
          destruct (rw_createTransaction w p)
      end; [|cbn; discriminate].
      cbn. intros H. inversion H; subst. cbn. split; [reflexivity|].
      eexists. repeat split; reflexivity.
    + cbn. intros H. inversion H; subst. cbn. split; [reflexivity|].
      eexists. repeat split; reflexivity.
Qed.

End Registration.

(** ** Order identifiers: printing an id and reading it back *)

Lemma string_of_uint_digits d : all_digits (NilEmpty.string_of_uint d) = true.
Proof. induction d; cbn [NilEmpty.string_of_uint all_digits]; auto. Qed.

Lemma span_all_digits s : all_digits s = true -> Pg.span_digits s = (s, "").
Proof.
  induction s as [|c s IH]; cbn [all_digits Pg.span_digits]; auto.
  intros H. apply andb_true_iff in H. destruct H as [Hc Hs].
  rewrite Hc, (IH Hs). reflexivity.
Qed.

Lemma digit_not_dash c : Pg.is_digit c = true -> Ascii.eqb c "-" = false.
Proof.
  intros H. destruct (Ascii.eqb_spec c "-") as [->|]; auto.
Qed.

Lemma all_digits_dash_free s : all_digits s = true -> dash_free s = true.
Proof.
  induction s as [|c s IH]; cbn [all_digits dash_free]; auto.
  intros H. apply andb_true_iff in H. destruct H as [Hc Hs].
  rewrite (digit_not_dash c Hc), (IH Hs). reflexivity.
Qed.

(** Splitting stops at the first dash. *)
Lemma split_first_segment s rest :
  dash_free s = true ->
  Js.split "-" (s ++ String "-" rest) = s :: Js.split "-" rest.
Proof.
  induction s as [|c s IH]; cbn [dash_free]; intros H.
  - reflexivity.
  - apply andb_true_iff in H. destruct H as [Hc Hs].
    apply negb_true_iff in Hc.
    change (String c s ++ String "-" rest)%string
      with (String c (s ++ String "-" rest)).
    cbn [Js.split]. rewrite Hc, (IH Hs). reflexivity.
Qed.

Lemma of_uint_nonneg d : 0 <= Z.of_uint d.
Proof. unfold Z.of_uint. apply N2Z.is_nonneg. Qed.

Lemma int4_in_digits d :
  d <> Decimal.Nil ->
  Pg.int4_in (NilEmpty.string_of_uint d) =
  if (Z.of_uint d <=? Pg.int4_max) then Some (Z.of_uint d) else None.
Proof.
  intros Hd.
  pose proof (string_of_uint_digits d) as Hall.
  pose proof (NilEmpty.usu d) as Hval.
  pose proof (of_uint_nonneg d) as Hpos.
  assert (Hmin : (Pg.int4_min <=? Z.of_uint d) = true)
    by (apply Z.leb_le; unfold Pg.int4_min; lia).
  destruct d; [congruence| ..]; cbn [NilEmpty.string_of_uint] in *.
  all: unfold Pg.int4_in; cbn [Pg.skip_spaces].
  all: match goal with
       | |- context [Pg.is_space ?c] => change (Pg.is_space c) with false
       end.
  all: cbv beta iota.
  all: rewrite (span_all_digits _ Hall).
  all: unfold Pg.digits_value; rewrite Hval.
  all: cbn [option_map Pg.skip_spaces]; rewrite Hmin; reflexivity.
Qed.

Lemma number_to_string_nonneg z :
  0 <= z ->
  exists d, d <> Decimal.Nil /\ Js.number_to_string z = NilEmpty.string_of_uint d
            /\ Z.of_uint d = z.
Proof.
  intros Hz. unfold Js.number_to_string.
  pose proof (DecimalZ.of_to z) as Hoz.
  destruct z as [|p|p]; [| |lia]; cbn [Z.to_int NilEmpty.string_of_int] in *.
  - eexists. split; [|split; [reflexivity|exact Hoz]]. discriminate.
  - exists (Pos.to_uint p). split; [|split; [reflexivity|exact Hoz]].
    intros E. pose proof (DecimalPos.Unsigned.of_to p) as H.
    rewrite E in H. discriminate.
Qed.

Lemma int4_in_number_to_string z :
  0 <= z <= Pg.int4_max -> Pg.int4_in (Js.number_to_string z) = Some z.
Proof.
  intros [H0 H1]. destruct (number_to_string_nonneg z H0) as (d & Hd & -> & Hv).
  rewrite (int4_in_digits d Hd), Hv.
  apply Z.leb_le in H1. rewrite H1. reflexivity.
Qed.

Lemma registrasiId_of_make_order_id rid now :
  0 <= rid ->
  registrasiId_of_order (make_order_id rid now) = Some (Js.number_to_string rid).
Proof.
  intros H0. destruct (number_to_string_nonneg rid H0) as (d & Hd & E & Hv).
  unfold registrasiId_of_order, make_order_id. rewrite E.
  change ("ORDER-" ++ NilEmpty.string_of_uint d ++ "-" ++ Js.number_to_string now)%string
    with ("ORDER" ++ String "-" (NilEmpty.string_of_uint d ++ String "-" (Js.number_to_string now)))%string.
  rewrite (split_first_segment "ORDER"%string) by reflexivity.
  rewrite split_first_segment
    by (apply all_digits_dash_free, string_of_uint_digits).
  reflexivity.
Qed.

(** ** Registration and the payment gateway *)

Lemma authenticateToken_rejects secret now bearer resp fx :
  authenticateToken secret now bearer = inl (resp, fx) ->
  In (status resp) [401; 403] /\ filter is_gateway_call fx = [].
Proof.
  unfold authenticateToken.
  destruct bearer as [[k p e|[|c raw]]|]; cbn [Jwt.verify];
    try destruct (String.eqb k secret); try destruct (e <=? now);
    intros H; inversion H; subst; cbn; intuition.
Qed.

(** Walks through [register_handler] in the order of the source: one goal
    per way out of the handler. *)
Ltac walk_register secret w db bearer eventId tiket :=
  unfold register_handler;
  destruct (authenticateToken secret (rw_clock w) bearer)
    as [[?resp ?fx]|?user] eqn:?Eauth;
  [| destruct (tiketQuery db tiket eventId) as [|?td ?rest] eqn:?Equery;
     [| destruct (0 <? Z.of_nat (List.length
                   (registrasiCheckQuery db _ eventId))) eqn:?Edup;
        [| destruct (tt_kuota (fst _) <=? countQuery db tiket) eqn:?Ecap;
           [| unfold insertRegistrasiQuery;
              destruct (existsb _ (tbl_Registrasi db)) eqn:?Efresh;
              [| destruct (0 <? tt_harga (fst _)) eqn:?Eprice;
                 [ match goal with
                   | |- context [userQuery ?d ?u] =>
                       destruct (userQuery d u) as [|?userData ?others]
                   end;
                   [| match goal with
                      | |- context [rw_createTransaction w ?p] =>
                          destruct (rw_createTransaction w p) as [?token|]
                                   eqn:?Egateway
                      end ]
                 | ] ] ] ] ] ].

Section Payment.

Variable JWT_SECRET : string.

(** C6: a registration answered 201 for a ticket type of price 0 reports
    [isFree = true], carries no payment token and made no call to the
    gateway; for a price above 0 it reports [isFree = false] and carries
    the token the gateway returned to its one [createTransaction] call,
    whose amount is the price. *)
Theorem register_payment_branch w db bearer eventId tiket_tipe_id
        tiketData rest message pendaftaran paymentToken paymentUrl isFree :
  let o := register_handler JWT_SECRET w db bearer eventId tiket_tipe_id in
  tiketQuery db tiket_tipe_id eventId = tiketData :: rest ->
  out_response o =
  mkResponse 201 (BRegistered message pendaftaran paymentToken paymentUrl
                              isFree) ->
  (tt_harga (fst tiketData) = 0 ->
   isFree = true /\ paymentToken = None
   /\ filter is_gateway_call (out_effects o) = [])
  /\ (0 < tt_harga (fst tiketData) ->
      isFree = false
      /\ exists token parameter,
          paymentToken = Some token
          /\ rw_createTransaction w parameter = Some token
          /\ gross_amount parameter = tt_harga (fst tiketData)
          /\ filter is_gateway_call (out_effects o) =
             [SnapCreateTransaction parameter]).
Proof.
  cbv zeta. intros Hq. revert Hq.
  walk_register JWT_SECRET w db bearer eventId tiket_tipe_id;
    intros Hq Hresp; cbn in Hresp; try discriminate.
  - apply authenticateToken_rejects in Eauth. destruct Eauth as [Hst _].
    rewrite Hresp in Hst. cbn in Hst. intuition discriminate.
  - inversion Hq; subst td rest0. inversion Hresp; subst.
    apply Z.ltb_lt in Eprice. split; [lia|]. intros _.
    split; [apply Z.eqb_neq; lia|].
    eexists token, _. split; [reflexivity|]. split; [exact Egateway|].
    split; reflexivity.
  - inversion Hq; subst td rest0. inversion Hresp; subst.
    apply Z.ltb_ge in Eprice. split; [|lia]. intros E0.
    rewrite E0. repeat split; reflexivity.
Qed.

(** C7: the order id the registration sends to the gateway is built from
    the id of the row it has just inserted, and the notification endpoint
    reads that very id back from it: a notification carrying the order id
    updates the rows of that id, with the mapped status, in whatever
    database it finds.  Ids are those of a serial 32-bit column. *)
Theorem order_id_round_trip w db bearer eventId tiket_tipe_id parameter
        statusResponse :
  let o := register_handler JWT_SECRET w db bearer eventId tiket_tipe_id in
  0 <= rw_new_id w <= Pg.int4_max ->
  In (SnapCreateTransaction parameter) (out_effects o) ->
  sr_order_id statusResponse = Some (order_id parameter) ->
  (exists row,
      tbl_Registrasi (out_db o) = (tbl_Registrasi db ++ [row])%list
      /\ r_id row = rw_new_id w)
  /\ order_id parameter = make_order_id (rw_new_id w) (rw_now_order w)
  /\ option_map Pg.int4_in (registrasiId_of_order (order_id parameter))
     = Some (Some (rw_new_id w))
  /\ (forall later,
        out_db (notification_handler (Some statusResponse) later) =
        with_registrasi later
          (map (set_status
                  (newStatus (sr_transaction_status statusResponse)
                             (sr_fraud_status statusResponse))
                  (rw_new_id w))
               (tbl_Registrasi later))
        /\ out_response (notification_handler (Some statusResponse) later)
           = notification_received).
Proof.
  cbv zeta. intros Hid.
  assert (Hparse :
            forall now,
              option_map Pg.int4_in
                (registrasiId_of_order (make_order_id (rw_new_id w) now))
              = Some (Some (rw_new_id w))).
  { intros now. rewrite registrasiId_of_make_order_id by lia.
    cbn [option_map]. rewrite int4_in_number_to_string by exact Hid.
    reflexivity. }
  walk_register JWT_SECRET w db bearer eventId tiket_tipe_id;
    intros Hin Horder; cbn in Hin.
  - apply authenticateToken_rejects in Eauth. destruct Eauth as [_ Hfx].
    exfalso.
    assert (Hf : In (SnapCreateTransaction parameter)
                    (filter is_gateway_call fx))
      by (apply filter_In; split; auto).
    rewrite Hfx in Hf. destruct Hf.
  - exfalso. intuition discriminate.
  - exfalso. intuition discriminate.
  - exfalso. intuition discriminate.
  - exfalso. intuition discriminate.
  - exfalso. intuition discriminate.
  - destruct Hin as [Hin|[Hin|[Hin|[]]]]; try discriminate.
    inversion Hin; subst parameter. clear Hin.
    cbn [snap_parameter order_id pb_id] in *.
    split; [eexists; split; reflexivity|]. split; [reflexivity|].
    split; [apply Hparse|].
    intros later. unfold notification_handler. rewrite Horder.
    specialize (Hparse (rw_now_order w)).
    destruct (registrasiId_of_order
                (make_order_id (rw_new_id w) (rw_now_order w)))
      as [s|]; [|discriminate].
    cbn [option_map] in Hparse. inversion Hparse as [Hs]. rewrite Hs.
    split; reflexivity.
  - destruct Hin as [Hin|[Hin|[Hin|[]]]]; try discriminate.
    inversion Hin; subst parameter. clear Hin.
    cbn [snap_parameter order_id pb_id] in *.
    split; [eexists; split; reflexivity|]. split; [reflexivity|].
    split; [apply Hparse|].
    intros later. unfold notification_handler. rewrite Horder.
    specialize (Hparse (rw_now_order w)).
    destruct (registrasiId_of_order
                (make_order_id (rw_new_id w) (rw_now_order w)))
      as [s|]; [|discriminate].
    cbn [option_map] in Hparse. inversion Hparse as [Hs]. rewrite Hs.
    split; reflexivity.
  - exfalso. intuition discriminate.
Qed.

End Payment.

(** ** Payment notifications *)

Lemma loose_eq_true x lit : Js.loose_eq x lit = true <-> x = Some lit.
Proof.
  destruct x as [s|]; cbn; [|split; discriminate].
  rewrite String.eqb_eq. split; congruence.
Qed.

(** C3, as amended: 'capture' with fraud status 'accept' and 'settlement'
    map to LUNAS, 'cancel', 'deny' and 'expire' map to BATAL, and every
    other input ('pending', 'capture' without 'accept', an unknown or
    missing status) maps to PENDING; the mapped status is then written to
    the rows of the id read from the order id, whatever their status was, so
    the PENDING cases leave a row unchanged only when it was PENDING. *)
Theorem notification_status_mapping :
  (forall ts fs,
      newStatus ts fs = LUNAS <->
      (ts = Some "capture" /\ fs = Some "accept") \/ ts = Some "settlement")
  /\ (forall ts fs,
         newStatus ts fs = BATAL <->
         ts = Some "cancel" \/ ts = Some "deny" \/ ts = Some "expire")
  /\ (forall ts fs,
         newStatus ts fs = PENDING <->
         ~ ((ts = Some "capture" /\ fs = Some "accept")
            \/ ts = Some "settlement" \/ ts = Some "cancel"
            \/ ts = Some "deny" \/ ts = Some "expire"))
  /\ (forall statusResponse db orderId segment target,
         sr_order_id statusResponse = Some orderId ->
         registrasiId_of_order orderId = Some segment ->
         Pg.int4_in segment = Some target ->
         let o := notification_handler (Some statusResponse) db in
         let st := newStatus (sr_transaction_status statusResponse)
                             (sr_fraud_status statusResponse) in
         out_response o = notification_received
         /\ tbl_Registrasi (out_db o) =
            map (set_status st target) (tbl_Registrasi db)
         /\ (forall r, In r (tbl_Registrasi (out_db o)) ->
                       r_id r = target -> r_status_pembayaran r = st)).
Proof.
  assert (Hmap : forall ts fs,
             (newStatus ts fs = LUNAS <->
              (ts = Some "capture" /\ fs = Some "accept")
              \/ ts = Some "settlement")
             /\ (newStatus ts fs = BATAL <->
                 ts = Some "cancel" \/ ts = Some "deny" \/ ts = Some "expire")).
  { intros ts fs. unfold newStatus.
    destruct (Js.loose_eq ts "capture") eqn:E1.
    { apply loose_eq_true in E1. subst ts.
      destruct (Js.loose_eq fs "accept") eqn:E2.
      - apply loose_eq_true in E2. subst fs.
        split; split; auto; intuition discriminate.
      - split; split; try discriminate; intros H.
        + destruct H as [[_ H]|H]; [|discriminate].
          apply loose_eq_true in H. congruence.
        + intuition discriminate. }
    destruct (Js.loose_eq ts "settlement") eqn:E2.
    { apply loose_eq_true in E2. subst ts.
      split; split; auto; intuition discriminate. }
    destruct (Js.loose_eq ts "cancel") eqn:E3.
    { apply loose_eq_true in E3. subst ts.
      split; split; auto; intuition discriminate. }
    destruct (Js.loose_eq ts "deny") eqn:E4.
    { apply loose_eq_true in E4. subst ts.
      split; split; auto; intuition discriminate. }
    destruct (Js.loose_eq ts "expire") eqn:E5.
    { apply loose_eq_true in E5. subst ts.
      split; split; auto; intuition discriminate. }
    cbn [orb].
    assert (N1 : ts <> Some "capture")
      by (intros H; apply loose_eq_true in H; congruence).
    assert (N2 : ts <> Some "settlement")
      by (intros H; apply loose_eq_true in H; congruence).
    assert (N3 : ts <> Some "cancel")
      by (intros H; apply loose_eq_true in H; congruence).
    assert (N4 : ts <> Some "deny")
      by (intros H; apply loose_eq_true in H; congruence).
    assert (N5 : ts <> Some "expire")
      by (intros H; apply loose_eq_true in H; congruence).
    destruct (Js.loose_eq ts "pending");
      split; split; try discriminate; intuition. }
  split; [intros ts fs; apply Hmap|].
  split; [intros ts fs; apply Hmap|].
  split.
  - intros ts fs. destruct (Hmap ts fs) as [HL HB].
    destruct (newStatus ts fs) eqn:E.
    + split; auto. intros _ H.
      destruct H as [H|[H|H]].
      * assert (PENDING = LUNAS) by (apply HL; left; exact H). discriminate.
      * assert (PENDING = LUNAS) by (apply HL; right; exact H). discriminate.
      * assert (PENDING = BATAL) by (apply HB; exact H). discriminate.
    + split; [discriminate|]. intros H. exfalso. apply H.
      destruct HL as [HL _]. destruct (HL eq_refl); auto.
    + split; [discriminate|]. intros H. exfalso. apply H.
      destruct HB as [HB _]. destruct (HB eq_refl); auto.
  - intros sr db orderId segment target Ho Hs Hp. cbv zeta.
    unfold notification_handler. rewrite Ho, Hs, Hp.
    split; [reflexivity|]. split; [reflexivity|].
    intros r Hin Hid.
    cbn [out_db fst updateStatusQuery tbl_Registrasi] in Hin.
    apply in_map_iff in Hin. destruct Hin as (r0 & <- & _).
    unfold set_status in *. destruct (r_id r0 =? target) eqn:E; cbn in *.
    + reflexivity.
    + apply Z.eqb_neq in E. contradiction.
Qed.

(** C5, as amended: the endpoint answers 200 when the gateway's status
    lookup succeeded, the response named an order and the id segment of the
    order was absent or an integer (also when no row has that id); when the
    lookup throws, the order id is missing or the segment is no integer, it
    logs the error, leaves the ledger as it was and answers HTTP 500. *)
Theorem notification_acknowledgment gateway db :
  let o := notification_handler gateway db in
  let fails :=
    gateway = None
    \/ exists statusResponse,
        gateway = Some statusResponse
        /\ (sr_order_id statusResponse = None
            \/ exists orderId segment,
                sr_order_id statusResponse = Some orderId
                /\ registrasiId_of_order orderId = Some segment
                /\ Pg.int4_in segment = None) in
  (fails ->
   out_response o = notification_error /\ out_db o = db
   /\ In (ConsoleError "[MIDTRANS ERROR]") (out_effects o))
  /\ (~ fails ->
      out_response o = notification_received
      /\ filter is_console_error (out_effects o) = [])
  /\ (status (out_response o) = 200 \/ status (out_response o) = 500).
Proof.
  cbv zeta. unfold notification_handler.
  destruct gateway as [sr|].
  2:{ split; [|split]; cbn -[registrasiId_of_order Pg.int4_in]; intuition. }
  destruct (sr_order_id sr) as [orderId|] eqn:Eo.
  2:{ split; [|split]; cbn -[registrasiId_of_order Pg.int4_in]; [intuition| |auto].
      intros H. exfalso. apply H. right. exists sr. auto. }
  destruct (registrasiId_of_order orderId) as [segment|] eqn:Es.
  2:{ split; [|split]; cbn -[registrasiId_of_order Pg.int4_in]; [|intuition|auto].
      intros [H|(sr' & H & [H'|(o' & s' & H1 & H2 & H3)])]; try discriminate.
      - inversion H; subst sr'. congruence.
      - inversion H; subst sr'. congruence. }
  destruct (Pg.int4_in segment) as [target|] eqn:Ep.
  - split; [|split]; cbn -[registrasiId_of_order Pg.int4_in]; [|intuition|auto].
    intros [H|(sr' & H & [H'|(o' & s' & H1 & H2 & H3)])]; try discriminate.
    + inversion H; subst sr'. congruence.
    + inversion H; subst sr'. congruence.
  - split; [|split]; cbn -[registrasiId_of_order Pg.int4_in]; [intuition| |auto].
    intros H. exfalso. apply H. right. exists sr. split; auto.
    right. exists orderId, segment. auto.
Qed.

(** ** Confirmation of a payment by the organizer *)





Section Confirmation.

Variable JWT_SECRET : string.



End Confirmation.

(** ** Token refresh *)

Section Refresh.

Variables JWT_SECRET JWT_REFRESH_SECRET : string.

(** C9, as amended: a refresh request is answered 401 when no token is
    sent, 403 when the token is not one signed under the refresh secret or
    has expired, and 404 (not 401 or 403) when the user it names no longer
    exists; exactly when all checks pass it is answered 200 with a new
    access token for that user, valid for one hour.  The database is never
    written. *)
Theorem refresh_outcomes clock db :
  (forall refreshToken,
      out_db (refresh_handler JWT_SECRET JWT_REFRESH_SECRET clock db
                              refreshToken) = db)
  /\ status (out_response
               (refresh_handler JWT_SECRET JWT_REFRESH_SECRET clock db None))
     = 401
  /\ (forall raw,
         raw <> "" ->
         status (out_response
                   (refresh_handler JWT_SECRET JWT_REFRESH_SECRET clock db
                                    (Some (Jwt.Malformed raw)))) = 403)
  /\ (forall key payload exp,
         key <> JWT_REFRESH_SECRET ->
         status (out_response
                   (refresh_handler JWT_SECRET JWT_REFRESH_SECRET clock db
                                    (Some (Jwt.Signed key payload exp))))
         = 403)
  /\ (forall payload exp,
         exp <= clock ->
         status (out_response
                   (refresh_handler JWT_SECRET JWT_REFRESH_SECRET clock db
                      (Some (Jwt.Signed JWT_REFRESH_SECRET payload exp))))
         = 403)
  /\ (forall payload exp,
         clock < exp ->
         userQuery db (Jwt.p_userId payload) = [] ->
         status (out_response
                   (refresh_handler JWT_SECRET JWT_REFRESH_SECRET clock db
                      (Some (Jwt.Signed JWT_REFRESH_SECRET payload exp))))
         = 404)
  /\ (forall refreshToken,
         status (out_response
                   (refresh_handler JWT_SECRET JWT_REFRESH_SECRET clock db
                                    refreshToken)) = 200 <->
         exists payload exp user others,
           refreshToken = Some (Jwt.Signed JWT_REFRESH_SECRET payload exp)
           /\ clock < exp
           /\ userQuery db (Jwt.p_userId payload) = user :: others
           /\ out_response
                (refresh_handler JWT_SECRET JWT_REFRESH_SECRET clock db
                                 refreshToken)
              = mkResponse 200
                  (BRefreshed
                     (Jwt.Signed JWT_SECRET (access_payload user)
                                 (clock + 3600))
                     (public_user user))).
Proof.
  split.
  { intros [[k p e|[|c raw]]|]; unfold refresh_handler; cbn [Jwt.verify];
      try reflexivity.
    - destruct (String.eqb k JWT_REFRESH_SECRET); [|reflexivity].
      destruct (e <=? clock); [reflexivity|].
      destruct (userQuery db (Jwt.p_userId p)); reflexivity. }
  split; [reflexivity|].
  split.
  { intros [|c raw] Hraw; [congruence|reflexivity]. }
  split.
  { intros key payload exp Hkey. unfold refresh_handler. cbn [Jwt.verify].
    apply String.eqb_neq in Hkey. rewrite Hkey. reflexivity. }
  split.
  { intros payload exp Hexp. unfold refresh_handler. cbn [Jwt.verify].
    rewrite String.eqb_refl. apply Z.leb_le in Hexp. rewrite Hexp.
    reflexivity. }
  split.
  { intros payload exp Hexp Hq. unfold refresh_handler. cbn [Jwt.verify].
    rewrite String.eqb_refl. apply Z.leb_gt in Hexp. rewrite Hexp, Hq.
    reflexivity. }
  intros refreshToken. split.
  - unfold refresh_handler.
    destruct refreshToken as [[k p e|[|c raw]]|]; cbn [Jwt.verify];
      try (cbn; discriminate).
    destruct (String.eqb_spec k JWT_REFRESH_SECRET) as [->|];
      [|cbn; discriminate].
    destruct (e <=? clock) eqn:Ee; [cbn; discriminate|].
    destruct (userQuery db (Jwt.p_userId p)) as [|user others] eqn:Eu;
      [cbn; discriminate|].
    intros _. exists p, e, user, others.
    apply Z.leb_gt in Ee. repeat split; auto.
  - intros (payload & exp & user & others & -> & _ & _ & ->). reflexivity.
Qed.

End Refresh.

(** ** The statements at work on the example *)

Import Example.

Lemma register_inserts_pending_witness :
  pb_status_pembayaran alice_pendaftaran = PENDING
  /\ exists row,
      tbl_Registrasi
        (out_db (register_handler secret (world 1) catalog
                                  (Some (token_of alice)) 1 (tt_id free_entry)))
      = (tbl_Registrasi catalog ++ [row])%list
      /\ r_id row = pb_id alice_pendaftaran
      /\ r_status_pembayaran row = PENDING.
Proof.
  destruct (register_inserts_pending secret (world 1) catalog
              (Some (token_of alice)) 1 (tt_id free_entry)) as (_ & H & _).
  apply (H "Pendaftaran berhasil!"%string alice_pendaftaran None None true).
  reflexivity.
Defined.

Lemma register_payment_branch_witness :
  exists token parameter,
    Some "snap-token-66e4fa55"%string = Some token
    /\ rw_createTransaction (world 1) parameter = Some token
    /\ gross_amount parameter = tt_harga vip
    /\ filter is_gateway_call
         (out_effects (register_handler secret (world 1) catalog
                                        (Some (token_of bob)) 1 (tt_id vip)))
       = [SnapCreateTransaction parameter].
Proof.
  assert (Hq : tiketQuery catalog (tt_id vip) 1 = [(vip, techfest)])
    by reflexivity.
  assert (Hresp :
            out_response (register_handler secret (world 1) catalog
                                           (Some (token_of bob)) 1 (tt_id vip))
            = mkResponse 201
                (BRegistered
                   "Pendaftaran berhasil! Silakan selesaikan pembayaran."
                   bob_pendaftaran (Some "snap-token-66e4fa55"%string)
                   (Some
                      "https://app.sandbox.midtrans.com/snap/v2/vtweb/snap-token-66e4fa55"%string)
                   false)) by reflexivity.
  destruct (register_payment_branch secret (world 1) catalog
              (Some (token_of bob)) 1 (tt_id vip) (vip, techfest) [] _ _ _ _ _
              Hq Hresp) as (_ & H).
  assert (Hprice : 0 < tt_harga (fst (vip, techfest)))
    by (vm_compute; reflexivity).
  exact (proj2 (H Hprice)).
Defined.

Lemma order_id_round_trip_witness :
  order_id bob_parameter = make_order_id 1 1700000000001
  /\ out_db (notification_handler
               (Some (mkStatusResponse (Some (order_id bob_parameter))
                                       (Some "settlement"%string) None))
               (ledger PENDING))
     = ledger LUNAS.
Proof.
  assert (Hid : 0 <= rw_new_id (world 1) <= Pg.int4_max)
    by (split; vm_compute; discriminate).
  assert (Hin : In (SnapCreateTransaction bob_parameter)
                   (out_effects (register_handler secret (world 1) catalog
                                   (Some (token_of bob)) 1 (tt_id vip))))
    by (right; left; reflexivity).
  destruct (order_id_round_trip secret (world 1) catalog (Some (token_of bob))
              1 (tt_id vip) bob_parameter
              (mkStatusResponse (Some (order_id bob_parameter))
                                (Some "settlement"%string) None)
              Hid Hin eq_refl) as (_ & H1 & _ & H2).
  split; [exact H1|]. exact (proj1 (H2 (ledger PENDING))).
Defined.

Lemma notification_status_mapping_witness :
  tbl_Registrasi (out_db (notification_handler (gateway_says "settlement")
                                               (ledger PENDING)))
  = [alice_row LUNAS].
Proof.
  destruct notification_status_mapping as (_ & _ & _ & H).
  assert (Hs : registrasiId_of_order alice_order = Some "1"%string)
    by reflexivity.
  assert (Hp : Pg.int4_in "1" = Some 1) by reflexivity.
  destruct (H (mkStatusResponse (Some alice_order) (Some "settlement"%string)
                                None)
              (ledger PENDING) alice_order "1"%string 1 eq_refl Hs Hp)
    as (_ & H2 & _).
  exact H2.
Defined.

(** The claim C3 fails as stated: a status the mapping does not know, and
    likewise 'pending', turns a paid row back to PENDING. *)
Lemma unknown_status_resets_paid_row :
  tbl_Registrasi (ledger LUNAS) = [alice_row LUNAS]
  /\ tbl_Registrasi (out_db (notification_handler (gateway_says "refund")
                                                  (ledger LUNAS)))
     = [alice_row PENDING]
  /\ tbl_Registrasi (out_db (notification_handler (gateway_says "pending")
                                                  (ledger LUNAS)))
     = [alice_row PENDING]
  /\ alice_row PENDING <> alice_row LUNAS.
Proof. repeat split; try reflexivity. discriminate. Qed.

Lemma notification_acknowledgment_witness :
  (out_response (notification_handler None (ledger PENDING))
   = notification_error
   /\ out_db (notification_handler None (ledger PENDING)) = ledger PENDING
   /\ In (ConsoleError "[MIDTRANS ERROR]")
         (out_effects (notification_handler None (ledger PENDING))))
  /\ (out_response (notification_handler (gateway_says "settlement")
                                         (ledger PENDING))
      = notification_received
      /\ filter is_console_error
           (out_effects (notification_handler (gateway_says "settlement")
                                              (ledger PENDING))) = []).
Proof.
  split.
  - destruct (notification_acknowledgment None (ledger PENDING)) as (H & _).
    apply H. left. reflexivity.
  - destruct (notification_acknowledgment (gateway_says "settlement")
                                          (ledger PENDING)) as (_ & H & _).
    apply H.
    intros [Hn|(sr & Hsr & [Ho|(orderId & segment & Ho & Hs & Hp)])].
    + discriminate Hn.
    + inversion Hsr; subst sr. discriminate Ho.
    + inversion Hsr; subst sr. inversion Ho; subst orderId.
      vm_compute in Hs. inversion Hs; subst segment. discriminate Hp.
Defined.

(** The claim C5 fails as stated: when the gateway's status lookup throws,
    or its answer names no order, the endpoint answers 500. *)
Lemma failed_notification_answer_is_500 :
  status (out_response (notification_handler None (ledger PENDING))) = 500
  /\ status (out_response
               (notification_handler
                  (Some (mkStatusResponse None (Some "settlement"%string) None))
                  (ledger PENDING))) = 500
  /\ status (out_response (notification_handler None (ledger PENDING)))
     <> 200.
Proof. repeat split; try reflexivity. vm_compute. discriminate. Qed.


Lemma refresh_outcomes_witness :
  status (out_response
            (refresh_handler secret refresh_secret clock catalog
                             (Some (refresh_token_for (u_id alice))))) = 200
  /\ status (out_response
               (refresh_handler secret refresh_secret clock catalog
                                (Some (refresh_token_for 7)))) = 404.
Proof.
  destruct (refresh_outcomes secret refresh_secret clock catalog)
    as (_ & _ & _ & _ & _ & H404 & H200).
  split.
  - apply H200.
    exists (Jwt.mkPayload (u_id alice) None None (Some "refresh"%string)),
           (1000 + 604800), alice, [].
    repeat split; reflexivity.
  - apply (H404 (Jwt.mkPayload 7 None None (Some "refresh"%string))
                (1000 + 604800)); reflexivity.
Defined.

(** The claim C9 fails as stated: a well-signed, unexpired refresh token
    whose user is not in the table is answered 404, which is neither 401
    nor 403. *)
Lemma refresh_for_missing_user_is_404 :
  Jwt.verify clock (refresh_token_for 7) refresh_secret
  = Jwt.Verified (Jwt.mkPayload 7 None None (Some "refresh"%string))
  /\ userQuery catalog 7 = []
  /\ out_response (refresh_handler secret refresh_secret clock catalog
                                   (Some (refresh_token_for 7)))
     = mkResponse 404 (BMessage "User tidak ditemukan")
  /\ ~ In (status (out_response
                     (refresh_handler secret refresh_secret clock catalog
                                      (Some (refresh_token_for 7)))))
          [401; 403].
Proof.
  repeat split; try reflexivity.
  vm_compute. intros [H|[H|[]]]; discriminate.
Qed.

(** * The registration route, statement by statement *)

Section RegistrationRoute.

Variable JWT_SECRET : string.

Lemma tiketQuery_rows db t e tiketData :
  In tiketData (tiketQuery db t e) ->
  In (fst tiketData) (tbl_TiketTipe db) /\ tt_id (fst tiketData) = t.
Proof.
  unfold tiketQuery. rewrite in_flat_map. intros (tt & Htt & H).
  apply in_map_iff in H. destruct H as (ev & <- & Hev).
  apply filter_In in Hev. destruct Hev as [_ Hc].
  apply andb_true_iff in Hc. destruct Hc as [Hc _].
  apply andb_true_iff in Hc. destruct Hc as [_ Hc].
  apply Z.eqb_eq in Hc. cbn. auto.
Qed.

Lemma length_pos_nonempty {A} (l : list A) :
  (0 <? Z.of_nat (List.length l)) = true <-> l <> [].
Proof.
  destruct l; cbn; split; intros H; try discriminate; congruence.
Qed.

(** C1, as amended: when the rows of the requested ticket type, as the
    handler finds them when it counts, are at least as many as the quota,
    the request inserts no row and calls no gateway.  It is answered 401 or
    403 when the bearer token is rejected; 500 when the event id of the URL
    is not text the database reads as an integer; 404 when the ticket type
    is not one of the event; 500 when the user id of the token is beyond
    the 32-bit range; 400 "Anda sudah terdaftar di event ini" when the
    caller has a row for the event; and otherwise 400 (not 409) "Maaf,
    tiket untuk tipe ini sudah habis". *)
Theorem sold_out_is_refused c db bearer eventId tiket_tipe_id t :
  let checked := rc_before_check c db in
  let counted := rc_before_count c checked in
  let h := register_route JWT_SECRET c db bearer eventId tiket_tipe_id in
  bind_text tiket_tipe_id = Some (PInt t) ->
  (forall tt, In tt (tbl_TiketTipe db) -> tt_id tt = t ->
              tt_kuota tt <= countQuery counted t) ->
  rt_gateway h = None
  /\ (forall resp fx,
         authenticateToken JWT_SECRET (rc_clock c) bearer = inl (resp, fx) ->
         rt_response h = resp /\ In (status resp) [401; 403]
         /\ rt_db h = db)
  /\ (forall user,
         authenticateToken JWT_SECRET (rc_clock c) bearer = inr user ->
         (Pg.int4_in eventId = None ->
          rt_response h = server_error /\ rt_db h = db)
         /\ (forall e,
                Pg.int4_in eventId = Some e ->
                (tiketQuery db t e = [] ->
                 rt_response h = ticket_not_found /\ rt_db h = db)
                /\ (tiketQuery db t e <> [] ->
                    (bind_number (Jwt.p_userId user) = None ->
                     rt_response h = server_error /\ rt_db h = checked)
                    /\ (forall u,
                           bind_number (Jwt.p_userId user) = Some u ->
                           (registrasiCheckQuery checked u e <> [] ->
                            rt_response h = already_registered
                            /\ rt_db h = checked)
                           /\ (registrasiCheckQuery checked u e = [] ->
                               rt_response h = sold_out
                               /\ rt_db h = counted))))).
Proof.
  cbv zeta. intros Ht Hfull. unfold register_route. rewrite Ht.
  destruct (authenticateToken JWT_SECRET (rc_clock c) bearer)
    as [[resp fx]|user] eqn:Eauth.
  { split; [reflexivity|]. split; [|intros u H; discriminate].
    intros resp' fx' H. inversion H; subst resp' fx'.
    apply authenticateToken_rejects in Eauth. cbn. intuition. }
  destruct (Pg.int4_in eventId) as [e|] eqn:Eid.
  2:{ split; [reflexivity|]. split; [intros r f H; discriminate|].
      intros u _. split; [auto|]. intros e H. discriminate. }
  destruct (tiketQuery db t e) as [|tiketData rest] eqn:Eq.
  { split; [reflexivity|]. split; [intros r f H; discriminate|].
    intros u _. split; [discriminate|]. intros e' He.
    inversion He; subst e'. rewrite Eq. split; [auto|congruence]. }
  assert (Hhead : tt_kuota (fst tiketData)
                  <= countQuery (rc_before_count c (rc_before_check c db)) t).
  { destruct (tiketQuery_rows db t e tiketData) as [Hin Hid];
      [rewrite Eq; now left|].
    apply Hfull; assumption. }
  destruct (bind_number (Jwt.p_userId user)) as [u|] eqn:Eu.
  2:{ split; [reflexivity|]. split; [intros r f H; discriminate|].
      intros user' H. inversion H; subst user'. rewrite Eu.
      split; [discriminate|]. intros e' He. inversion He; subst e'.
      rewrite Eq. split; [discriminate|]. intros _.
      split; [auto|]. intros u H'. discriminate. }
  destruct (0 <? Z.of_nat (List.length
              (registrasiCheckQuery (rc_before_check c db) u e))) eqn:Ed.
  { apply length_pos_nonempty in Ed.
    split; [reflexivity|]. split; [intros r f H; discriminate|].
    intros user' H. inversion H; subst user'. rewrite Eu.
    split; [discriminate|]. intros e' He. inversion He; subst e'.
    rewrite Eq. split; [discriminate|]. intros _.
    split; [discriminate|]. intros u' Hu. inversion Hu; subst u'.
    split; [auto|]. intros Hnil. contradiction. }
  assert (Hnil : registrasiCheckQuery (rc_before_check c db) u e = []).
  { destruct (registrasiCheckQuery (rc_before_check c db) u e); auto.
    discriminate Ed. }
  apply Z.leb_le in Hhead. rewrite Hhead.
  split; [reflexivity|]. split; [intros r f H; discriminate|].
  intros user' H. inversion H; subst user'. rewrite Eu.
  split; [discriminate|]. intros e' He. inversion He; subst e'.
  rewrite Eq. split; [discriminate|]. intros _.
  split; [discriminate|]. intros u' Hu. inversion Hu; subst u'.
  split; [|auto]. intros Hne. contradiction.
Qed.

Lemma non_cancelled_rows_le rows t :
  (List.length
     (filter (fun r => ((r_tiket_tipe_id r =? t)%Z
                        && negb (Status_eqb (r_status_pembayaran r) BATAL))%bool)
             rows)
   <= List.length (filter (fun r => (r_tiket_tipe_id r =? t)%Z) rows))%nat.
Proof.
  induction rows as [|y rows IH]; cbn [filter]; [lia|].
  destruct (r_tiket_tipe_id y =? t)%Z; cbn [andb]; [|exact IH].
  destruct (negb (Status_eqb (r_status_pembayaran y) BATAL)); cbn; lia.
Qed.

Lemma count_covers_non_cancelled db t :
  non_cancelled_count db t <= countQuery db t.
Proof.
  unfold non_cancelled_count, countQuery. apply inj_le.
  apply non_cancelled_rows_le.
Qed.

Lemma cancelled_row_is_counted db t r :
  In r (tbl_Registrasi db) -> r_tiket_tipe_id r = t ->
  r_status_pembayaran r = BATAL ->
  non_cancelled_count db t < countQuery db t.
Proof.
  unfold non_cancelled_count, countQuery. intros Hin Ht Hst.
  apply inj_lt.
  induction (tbl_Registrasi db) as [|x rows IH]; [destruct Hin|].
  pose proof (non_cancelled_rows_le rows t) as Hle.
  cbn [filter]. destruct Hin as [->|Hin].
  - rewrite Ht, Z.eqb_refl, Hst. cbn. lia.
  - specialize (IH Hin).
    destruct (r_tiket_tipe_id x =? t)%Z; cbn [andb]; [|exact IH].
    destruct (negb (Status_eqb (r_status_pembayaran x) BATAL)); cbn; lia.
Qed.

(** C2, as amended: the capacity check counts every row of the ticket
    type, whatever its status, so a cancelled registration keeps its seat.
    A request that reaches the check is answered "sold out" exactly when
    the rows it counts are at least as many as the quota, and then it
    inserts nothing and calls no gateway; when they are fewer it goes on to
    insert its own row, with the status PENDING, into the table as it is by
    then, and is answered 201, or 500 when the id is taken, the row of the
    user is missing or the gateway fails.  The rows that are not cancelled
    are never more than the rows counted, and fewer as soon as one row of
    the type is cancelled. *)
Theorem capacity_check_counts_every_row c db bearer eventId tiket_tipe_id
        user e t u tiketData rest :
  let checked := rc_before_check c db in
  let counted := rc_before_count c checked in
  let h := register_route JWT_SECRET c db bearer eventId tiket_tipe_id in
  let rows :=
    filter (fun r => r_tiket_tipe_id r =? t) (tbl_Registrasi counted) in
  let taken := Z.of_nat (List.length rows) in
  let kuota := tt_kuota (fst tiketData) in
  let harga := tt_harga (fst tiketData) in
  authenticateToken JWT_SECRET (rc_clock c) bearer = inr user ->
  Pg.int4_in eventId = Some e ->
  bind_text tiket_tipe_id = Some (PInt t) ->
  tiketQuery db t e = tiketData :: rest ->
  bind_number (Jwt.p_userId user) = Some u ->
  registrasiCheckQuery checked u e = [] ->
  (rt_response h = sold_out <-> kuota <= taken)
  /\ (kuota <= taken -> rt_db h = counted /\ rt_gateway h = None)
  /\ (taken < kuota ->
      let db3 := rc_before_insert c counted in
      let row := route_row c eventId e u t (Jwt.p_userId user) in
      let pendaftaranBaru :=
        mkPendaftaran (rc_new_id c) PENDING (r_qr_code_unik row) in
      let db4 := with_registrasi db3 (tbl_Registrasi db3 ++ [row])%list in
      let db5 := rc_before_user c db4 in
      (existsb (fun r => r_id r =? rc_new_id c) (tbl_Registrasi db3) = true ->
       rt_response h = server_error /\ rt_db h = db3
       /\ rt_gateway h = None)
      /\ (existsb (fun r => r_id r =? rc_new_id c) (tbl_Registrasi db3)
          = false ->
          (harga <= 0 ->
           rt_response h
           = registered "Pendaftaran berhasil!" pendaftaranBaru None harga
           /\ rt_db h = db4 /\ rt_gateway h = None)
          /\ (0 < harga ->
              rt_db h = db5
              /\ (userQuery db5 u = [] ->
                  rt_response h = server_error /\ rt_gateway h = None)
              /\ (forall userData others,
                     userQuery db5 u = userData :: others ->
                     let parameter :=
                       transaction_request pendaftaranBaru (rc_now_order c)
                                           tiket_tipe_id tiketData userData in
                     rt_gateway h = Some parameter
                     /\ (rc_createTransaction c parameter = None ->
                         rt_response h = server_error)
                     /\ (forall token,
                            rc_createTransaction c parameter = Some token ->
                            rt_response h
                            = registered
                                "Pendaftaran berhasil! Silakan selesaikan pembayaran."
                                pendaftaranBaru (Some token) harga)))))
  /\ non_cancelled_count counted t <= taken
  /\ (forall r,
         In r (tbl_Registrasi counted) -> r_tiket_tipe_id r = t ->
         r_status_pembayaran r = BATAL ->
         non_cancelled_count counted t < taken).
Proof.
  cbv zeta. intros Hauth He Ht Hq Hu Hnil.
  change (Z.of_nat
            (List.length
               (filter (fun r => r_tiket_tipe_id r =? t)
                  (tbl_Registrasi
                     (rc_before_count c (rc_before_check c db))))))
    with (countQuery (rc_before_count c (rc_before_check c db)) t).
  split; [|split; [|split; [|split]]];
    [| | |apply count_covers_non_cancelled|apply cancelled_row_is_counted].
  - unfold register_route. rewrite Hauth, He, Ht, Hq, Hu, Hnil.
    cbn [List.length Z.of_nat Z.ltb Z.compare].
    destruct (tt_kuota (fst tiketData)
              <=? countQuery (rc_before_count c (rc_before_check c db)) t)
      eqn:Ek.
    + apply Z.leb_le in Ek. split; auto.
    + apply Z.leb_gt in Ek. split; [|lia]. intros H. exfalso.
      revert H. unfold insertRegistrasiQuery.
      destruct (existsb _ _); [cbn; discriminate|].
      destruct (0 <? tt_harga (fst tiketData));
        [|cbn; discriminate].
      destruct (userQuery _ u); [cbn; discriminate|].
      destruct (rc_createTransaction c _); cbn; discriminate.
  - intros Hk. unfold register_route.
    rewrite Hauth, He, Ht, Hq, Hu, Hnil.
    cbn [List.length Z.of_nat Z.ltb Z.compare].
    apply Z.leb_le in Hk. rewrite Hk. split; reflexivity.
  - intros Hk. unfold register_route.
    rewrite Hauth, He, Ht, Hq, Hu, Hnil.
    cbn [List.length Z.of_nat Z.ltb Z.compare].
    assert (Ek : (tt_kuota (fst tiketData)
                  <=? countQuery (rc_before_count c (rc_before_check c db)) t)
                 = false) by (apply Z.leb_gt; exact Hk).
    rewrite Ek. unfold insertRegistrasiQuery, with_registrasi, route_row.
    cbn [r_qr_code_unik]. split.
    + intros ->. repeat split.
    + intros ->. split.
      * intros Hfree. assert (Eh : (0 <? tt_harga (fst tiketData)) = false)
          by (apply Z.ltb_ge; exact Hfree).
        rewrite Eh. repeat split.
      * intros Hpaid. apply Z.ltb_lt in Hpaid. rewrite Hpaid.
        split; [|split].
        -- destruct (userQuery _ u); [reflexivity|].
           destruct (rc_createTransaction c _); reflexivity.
        -- intros ->. split; reflexivity.
        -- intros userData others ->. split; [|split].
           ++ destruct (rc_createTransaction c _); reflexivity.
           ++ intros ->. reflexivity.
           ++ intros token ->. reflexivity.
Qed.

(** C4, as amended: a registration attempt by a user who has a row for the
    event when the handler looks for one, even for a different ticket type,
    inserts no row and calls no gateway.  It is answered 500 when the
    ticket type id of the body is not text the database reads as an
    integer; 404 when that id is null or is not a ticket type of the event;
    500 when the user id of the token is beyond the 32-bit range; and
    otherwise 400 (not 409) "Anda sudah terdaftar di event ini". *)
Theorem second_registration_refused c db bearer eventId tiket_tipe_id
        user r :
  let checked := rc_before_check c db in
  let h := register_route JWT_SECRET c db bearer eventId tiket_tipe_id in
  authenticateToken JWT_SECRET (rc_clock c) bearer = inr user ->
  In r (tbl_Registrasi checked) ->
  r_user_id r = Jwt.p_userId user ->
  Pg.int4_in eventId = Some (r_event_id r) ->
  rt_gateway h = None
  /\ (rt_db h = db \/ rt_db h = checked)
  /\ (bind_text tiket_tipe_id = None -> rt_response h = server_error)
  /\ (bind_text tiket_tipe_id = Some PNull ->
      rt_response h = ticket_not_found)
  /\ (forall t,
         bind_text tiket_tipe_id = Some (PInt t) ->
         (tiketQuery db t (r_event_id r) = [] ->
          rt_response h = ticket_not_found)
         /\ (tiketQuery db t (r_event_id r) <> [] ->
             (bind_number (Jwt.p_userId user) = None ->
              rt_response h = server_error)
             /\ (bind_number (Jwt.p_userId user) <> None ->
                 rt_response h = already_registered))).
Proof.
  cbv zeta. intros Hauth Hin Hu He. unfold register_route.
  rewrite Hauth, He.
  destruct (bind_text tiket_tipe_id) as [[|t]|] eqn:Et.
  - repeat split; auto; discriminate.
  - destruct (tiketQuery db t (r_event_id r)) as [|tiketData rest] eqn:Eq.
    { split; [reflexivity|]. split; [auto|].
      split; [discriminate|]. split; [discriminate|].
      intros t' H. inversion H; subst t'. rewrite Eq.
      split; [auto|congruence]. }
    destruct (bind_number (Jwt.p_userId user)) as [u|] eqn:Eu.
    2:{ split; [reflexivity|]. split; [auto|].
        split; [discriminate|]. split; [discriminate|].
        intros t' H. inversion H; subst t'. rewrite Eq.
        split; [discriminate|]. intros _. split; [auto|congruence]. }
    assert (Hsame : u = Jwt.p_userId user).
    { unfold bind_number in Eu.
      destruct ((Pg.int4_min <=? Jwt.p_userId user)
                && (Jwt.p_userId user <=? Pg.int4_max));
        inversion Eu; reflexivity. }
    assert (Hdup : (0 <? Z.of_nat (List.length
                      (registrasiCheckQuery (rc_before_check c db) u
                                            (r_event_id r)))) = true).
    { apply length_pos_nonempty. intros Hnil.
      assert (Hr : In r (registrasiCheckQuery (rc_before_check c db) u
                                              (r_event_id r))).
      { unfold registrasiCheckQuery. apply filter_In. split; [exact Hin|].
        rewrite Hsame, Hu, !Z.eqb_refl. reflexivity. }
      rewrite Hnil in Hr. destruct Hr. }
    rewrite Hdup.
    split; [reflexivity|]. split; [auto|].
    split; [discriminate|]. split; [discriminate|].
    intros t' H. inversion H; subst t'. rewrite Eq.
    split; [discriminate|]. intros _. split; [discriminate|auto].
  - repeat split; auto; discriminate.
Qed.

End RegistrationRoute.

Import Interleaved.

Lemma sold_out_is_refused_witness :
  let h := register_route secret (call 2) (ledger PENDING)
                          (Some (token_of bob)) "1" (Some "2") in
  rt_gateway h = None
  /\ rt_response h = sold_out
  /\ rt_db h = ledger PENDING.
Proof.
  cbv zeta.
  assert (Hfull : forall tt,
             In tt (tbl_TiketTipe (ledger PENDING)) -> tt_id tt = 2 ->
             tt_kuota tt
             <= countQuery (rc_before_count (call 2)
                              (rc_before_check (call 2) (ledger PENDING))) 2).
  { intros tt [<-|[<-|[]]] Hid; vm_compute; discriminate. }
  destruct (sold_out_is_refused secret (call 2) (ledger PENDING)
              (Some (token_of bob)) "1"%string (Some "2"%string) 2
              eq_refl Hfull) as (Hgateway & _ & Hcases).
  split; [exact Hgateway|].
  destruct (Hcases (access_payload bob) eq_refl) as (_ & Hevent).
  destruct (Hevent 1 eq_refl) as (_ & Hticket).
  assert (Hfound : tiketQuery (ledger PENDING) 2 1 <> [])
    by (vm_compute; discriminate).
  destruct (Hticket Hfound) as (_ & Huser).
  destruct (Huser 3 eq_refl) as (_ & Hsold).
  apply Hsold. reflexivity.
Defined.

(** Where the answers differ from the 409 of the claim: with the one VIP
    seat taken, the request is answered 400 when the ticket is sold out or
    the caller is registered already, and 401, 403, 404 or 500 when it is
    refused before the count. *)
Lemma sold_out_answer_is_not_409 :
  let full := ledger PENDING in
  let answer bearer eventId tiket_tipe_id :=
    rt_response (register_route secret (call 2) full bearer eventId
                                tiket_tipe_id) in
  tt_kuota vip <= countQuery full (tt_id vip)
  /\ answer (Some (token_of bob)) "1" (Some "2") = sold_out
  /\ status (answer (Some (token_of bob)) "1" (Some "2")) <> 409
  /\ status (answer None "1" (Some "2")) = 401
  /\ status (answer (Some (Jwt.Malformed "not-a-token")) "1" (Some "2")) = 403
  /\ status (answer (Some (token_of bob)) "one" (Some "2")) = 500
  /\ status (answer (Some (token_of bob)) "2147483648" (Some "2")) = 500
  /\ status (answer (Some (token_of bob)) "7" (Some "2")) = 404
  /\ status (answer (Some stranger) "1" (Some "2")) = 500
  /\ answer (Some (token_of alice)) "1" (Some "2") = already_registered.
Proof.
  vm_compute. repeat split; discriminate.
Qed.

Lemma capacity_check_counts_every_row_witness :
  let h := register_route secret (call 2) (ledger BATAL)
                          (Some (token_of bob)) "1" (Some "2") in
  rt_response h = sold_out
  /\ rt_db h = ledger BATAL
  /\ non_cancelled_count (ledger BATAL) 2
     < Z.of_nat (List.length
                   (filter (fun r => r_tiket_tipe_id r =? 2)
                           (tbl_Registrasi (ledger BATAL)))).
Proof.
  cbv zeta.
  destruct (capacity_check_counts_every_row secret (call 2) (ledger BATAL)
              (Some (token_of bob)) "1"%string (Some "2"%string)
              (access_payload bob) 1 2 3 (vip, techfest) []
              eq_refl eq_refl eq_refl eq_refl eq_refl eq_refl)
    as (Hsold & Hkept & _ & _ & Hcancelled).
  assert (Hfull : tt_kuota (fst (vip, techfest))
                  <= Z.of_nat
                       (List.length
                          (filter (fun r => r_tiket_tipe_id r =? 2)
                             (tbl_Registrasi
                                (rc_before_count (call 2)
                                   (rc_before_check (call 2)
                                      (ledger BATAL)))))))
    by (vm_compute; discriminate).
  split; [apply Hsold; exact Hfull|].
  split; [apply Hkept; exact Hfull|].
  apply (Hcancelled (alice_row BATAL)); [left| |]; reflexivity.
Defined.

(** Two ways in which the claim fails.  A cancelled row keeps its seat:
    with the one VIP seat held by a cancelled row, so no row of the type
    that is not cancelled, the next request is answered "sold out".  And
    the quota can be exceeded: Bob and Alice ask for the one free ticket,
    Alice's request is handled after Bob's has counted and before it
    inserts, both are answered 201, and the ticket type ends with two rows
    that are not cancelled. *)
Lemma cancelled_row_keeps_its_seat :
  (let h := register_route secret (call 2) (ledger BATAL)
                           (Some (token_of bob)) "1" (Some "2") in
   non_cancelled_count (ledger BATAL) (tt_id vip) = 0
   /\ tt_kuota vip = 1
   /\ rt_response h = sold_out
   /\ tbl_Registrasi (rt_db h) = [alice_row BATAL])
  /\ (let h := register_route secret bob_overtaken catalog
                              (Some (token_of bob)) "1" (Some "1") in
      status (rt_response
                (register_route secret (call 1) catalog
                                (Some (token_of alice)) "1" (Some "1")))
      = 201
      /\ status (rt_response h) = 201
      /\ tt_kuota free_entry = 1
      /\ non_cancelled_count (rt_db h) (tt_id free_entry) = 2).
Proof.
  vm_compute. repeat split.
Qed.

Lemma second_registration_refused_witness :
  let h := register_route secret (call 2) (ledger PENDING)
                          (Some (token_of alice)) "1" (Some "1") in
  rt_gateway h = None
  /\ rt_db h = ledger PENDING
  /\ rt_response h = already_registered.
Proof.
  cbv zeta.
  assert (Hrow : In (alice_row PENDING)
                    (tbl_Registrasi (rc_before_check (call 2)
                                                     (ledger PENDING))))
    by (left; reflexivity).
  destruct (second_registration_refused secret (call 2) (ledger PENDING)
              (Some (token_of alice)) "1"%string (Some "1"%string)
              (access_payload alice) (alice_row PENDING)
              eq_refl Hrow eq_refl eq_refl)
    as (Hgateway & Hdb & _ & _ & Hcases).
  split; [exact Hgateway|].
  split; [destruct Hdb as [H|H]; exact H|].
  destruct (Hcases 1 eq_refl) as (_ & Hticket).
  assert (Hfound : tiketQuery (ledger PENDING) 1 (r_event_id (alice_row PENDING))
                   <> [])
    by (vm_compute; discriminate).
  apply (proj2 (Hticket Hfound)). vm_compute. discriminate.
Defined.

(** Where the code differs from the claim.  Alice, who holds the VIP seat,
    asks again, for the free ticket: the answer is 400, and it is 404 or
    500 when the ticket type id is unknown, missing or not a number.  And
    two rows for one user and one event can come about: Alice sends two
    requests, one for each ticket type; the first is handled after the
    second has looked for a row of hers and before it counts, both are
    answered 201, and the ledger ends with two rows of hers for the
    event. *)
Lemma second_registration_answer_is_not_409 :
  (let answer tiket_tipe_id :=
     rt_response (register_route secret (call 2) (ledger PENDING)
                                 (Some (token_of alice)) "1" tiket_tipe_id) in
   answer (Some "1") = already_registered
   /\ status (answer (Some "1")) <> 409
   /\ status (answer (Some "9")) = 404
   /\ status (answer None) = 404
   /\ status (answer (Some "two")) = 500)
  /\ (let h := register_route secret alice_twice catalog
                              (Some (token_of alice)) "1" (Some "2") in
      status (rt_response
                (register_route secret (call 1) catalog
                                (Some (token_of alice)) "1" (Some "1")))
      = 201
      /\ status (rt_response h) = 201
      /\ map attendance (tbl_Registrasi (rt_db h)) = [(2, 1); (2, 1)]).
Proof.
  vm_compute. repeat split; discriminate.
Qed.

(** * Further properties of the handlers *)

(** ** Input sanitising *)

(** X1: [sanitizeInput] returns a string without any of the four characters
    it strips, never a longer one; it leaves a string without them as it is,
    so applying it twice changes nothing more. *)
Theorem sanitizeInput_clean s :
  every (fun c => negb (is_stripped c)) (sanitizeInput s) = true
  /\ (String.length (sanitizeInput s) <= String.length s)%nat
  /\ (every (fun c => negb (is_stripped c)) s = true -> sanitizeInput s = s)
  /\ sanitizeInput (sanitizeInput s) = sanitizeInput s.
Proof.
  assert (Hclean : forall t,
             every (fun c => negb (is_stripped c)) (sanitizeInput t) = true).
  { induction t as [|c t IH]; cbn [sanitizeInput every]; auto.
    destruct (is_stripped c) eqn:E; cbn [every]; auto.
    rewrite E, IH. reflexivity. }
  assert (Hfix : forall t,
             every (fun c => negb (is_stripped c)) t = true ->
             sanitizeInput t = t).
  { induction t as [|c t IH]; cbn [sanitizeInput every]; auto.
    intros H. apply andb_true_iff in H. destruct H as [Hc Ht].
    apply negb_true_iff in Hc. rewrite Hc, (IH Ht). reflexivity. }
  split; [apply Hclean|]. split; [|split; [apply Hfix|]].
  - induction s as [|c s IH]; cbn [sanitizeInput String.length]; auto.
    destruct (is_stripped c); cbn [String.length]; lia.
  - apply Hfix, Hclean.
Qed.

Lemma sanitizeInput_clean_witness :
  sanitizeInput "VIP <b>Gold</b>" = "VIP bGold/b"%string
  /\ sanitizeInput "Free Entry" = "Free Entry"%string.
Proof.
  split; [reflexivity|].
  apply (proj1 (proj2 (proj2 (sanitizeInput_clean "Free Entry")))).
  reflexivity.
Defined.

(** ** Authentication and roles *)

Section Authentication.

Variable JWT_SECRET : string.

(** X2: the bearer check lets a request through exactly when the token was
    signed under the server's secret and has not expired, and hands the
    handler the payload of that token.  A refusal is a 401 or a 403, makes
    no gateway call, and carries the [expired] flag exactly when the token
    is well signed but past its expiry. *)
Theorem authenticateToken_accepts now bearer :
  (forall user,
      authenticateToken JWT_SECRET now bearer = inr user <->
      exists exp, bearer = Some (Jwt.Signed JWT_SECRET user exp) /\ now < exp)
  /\ (forall resp fx,
         authenticateToken JWT_SECRET now bearer = inl (resp, fx) ->
         In (status resp) [401; 403]
         /\ filter is_gateway_call fx = []
         /\ (body resp = BTokenExpired <->
             exists payload exp,
               bearer = Some (Jwt.Signed JWT_SECRET payload exp)
               /\ exp <= now)).
Proof.
  split.
  - intros user. unfold authenticateToken. split.
    + destruct bearer as [[k p e|[|c raw]]|]; cbn [Jwt.verify];
        try discriminate.
      destruct (String.eqb_spec k JWT_SECRET) as [->|]; [|discriminate].
      destruct (e <=? now) eqn:E; [discriminate|].
      intros H. inversion H; subst. exists e. split; auto.
      now apply Z.leb_gt.
    + intros (exp & -> & Hlt). cbn [Jwt.verify].
      rewrite String.eqb_refl. apply Z.leb_gt in Hlt. now rewrite Hlt.
  - intros resp fx H.
    destruct (authenticateToken_rejects JWT_SECRET now bearer resp fx H)
      as [H1 H2].
    split; [exact H1|]. split; [exact H2|].
    unfold authenticateToken in H.
    destruct bearer as [[k p e|[|c raw]]|]; cbn [Jwt.verify] in H.
    + destruct (String.eqb_spec k JWT_SECRET) as [->|Hk].
      * destruct (e <=? now) eqn:E; inversion H; subst; cbn [body].
        split; auto. intros _. exists p, e. split; auto.
        now apply Z.leb_le.
      * inversion H; subst; cbn [body]. split; [discriminate|].
        intros (p' & e' & Heq & _). inversion Heq. congruence.
    + inversion H; subst; cbn [body]. split; [discriminate|].
      intros (p' & e' & Heq & _). discriminate.
    + inversion H; subst; cbn [body]. split; [discriminate|].
      intros (p' & e' & Heq & _). discriminate.
    + inversion H; subst; cbn [body]. split; [discriminate|].
      intros (p' & e' & Heq & _). discriminate.
Qed.

End Authentication.

Lemma authenticateToken_accepts_witness :
  authenticateToken secret clock (Some (token_of alice))
  = inr (access_payload alice).
Proof.
  apply (proj1 (authenticateToken_accepts secret clock
                                          (Some (token_of alice)))).
  exists (1000 + one_hour). split; [reflexivity|]. vm_compute. reflexivity.
Defined.

Lemma requireRole_organisasi user :
  requireRole [ORGANISASI] user = None <-> Jwt.p_role user = Some ORGANISASI.
Proof.
  unfold requireRole. destruct (Jwt.p_role user) as [[]|]; cbn;
    split; intros H; try discriminate; auto.
Qed.

Lemma requireRole_refuses allowed user resp fx :
  requireRole allowed user = Some (resp, fx) ->
  status resp = 403 /\ filter is_gateway_call fx = [].
Proof.
  unfold requireRole. destruct (Jwt.p_role user) as [r|].
  - destruct (existsb (Role_eqb r) allowed); [discriminate|].
    intros H. inversion H; subst. split; reflexivity.
  - intros H. inversion H; subst. split; reflexivity.
Qed.

(** ** Ticket types *)

Section Tickets.

Variable JWT_SECRET : string.


End Tickets.

(** ** When a registration is accepted *)


Section Acceptance.

Variable JWT_SECRET : string.



End Acceptance.

(** ** A new ticket type is open for registration *)


Section NewTicket.

Variable JWT_SECRET : string.



End NewTicket.




(** ** Who may confirm a payment *)

Section ConfirmationAccess.

Variable JWT_SECRET : string.

(** X6: a confirmation is carried out (answer 200) exactly when the caller
    holds a valid token with the role ORGANISASI, the id in the URL is text
    the database reads as an integer, and the registration, joined with its
    event, exists and the event was created by the caller.  For a caller
    with such a token, an id that is not such text (so also a number beyond
    the 32-bit range) is answered 500, an unknown registration 404, and a
    registration of somebody else's event 403.  Without the answer 200 the
    request writes nothing, and with it only the status column changes. *)
Theorem confirm_payment_access clock between db bearer registrasiId :
  let o := confirm_payment_route JWT_SECRET clock between db bearer
                                 registrasiId in
  (status (out_response o) = 200 <->
   exists user id row others,
     authenticateToken JWT_SECRET clock bearer = inr user
     /\ Jwt.p_role user = Some ORGANISASI
     /\ Pg.int4_in registrasiId = Some id
     /\ verificationQuery db id = row :: others
     /\ fst row = Jwt.p_userId user)
  /\ (status (out_response o) <> 200 ->
      out_db o = db /\ In (status (out_response o)) [401; 403; 404; 500])
  /\ (forall user,
        authenticateToken JWT_SECRET clock bearer = inr user ->
        Jwt.p_role user = Some ORGANISASI ->
        (Pg.int4_in registrasiId = None -> out_response o = server_error)
        /\ (forall id,
               Pg.int4_in registrasiId = Some id ->
               (verificationQuery db id = [] ->
                status (out_response o) = 404)
               /\ (forall row others,
                      verificationQuery db id = row :: others ->
                      fst row <> Jwt.p_userId user ->
                      status (out_response o) = 403)))
  /\ (status (out_response o) = 200 ->
      map stable_columns (tbl_Registrasi (out_db o))
      = map stable_columns (tbl_Registrasi (between db))
      /\ tbl_User (out_db o) = tbl_User (between db)
      /\ tbl_Event (out_db o) = tbl_Event (between db)
      /\ tbl_TiketTipe (out_db o) = tbl_TiketTipe (between db)).
Proof.
  cbv zeta. unfold confirm_payment_route.
  destruct (authenticateToken JWT_SECRET clock bearer) as [[resp fx]|user]
    eqn:Eauth.
  { apply authenticateToken_rejects in Eauth. destruct Eauth as [Hs _].
    assert (Hn : status resp <> 200)
      by (intros H; rewrite H in Hs; cbn in Hs; intuition discriminate).
    cbn. split; [|split; [|split]].
    - split; [contradiction|].
      intros (u & id & row & others & H & _). discriminate.
    - intros _. cbn in Hs. intuition.
    - intros u H. discriminate.
    - contradiction. }
  destruct (requireRole [ORGANISASI] user) as [[resp fx]|] eqn:Erole.
  { pose proof Erole as Hs. apply requireRole_refuses in Hs.
    destruct Hs as [Hs _].
    assert (Hn : status resp <> 200) by (rewrite Hs; discriminate).
    cbn. split; [|split; [|split]].
    - split; [contradiction|].
      intros (u & id & row & others & H & Hr & _). inversion H; subst u.
      apply requireRole_organisasi in Hr. congruence.
    - intros _. rewrite Hs. cbn. intuition.
    - intros u H Hr. inversion H; subst u.
      apply requireRole_organisasi in Hr. congruence.
    - contradiction. }
  apply requireRole_organisasi in Erole.
  destruct (Pg.int4_in registrasiId) as [id|] eqn:Eid.
  2:{ cbn. split; [|split; [|split]].
      - split; [discriminate|].
        intros (u & id & row & others & _ & _ & H & _). discriminate.
      - intros _. intuition.
      - intros u _ _. split; [reflexivity|]. intros id H. discriminate.
      - discriminate. }
  destruct (verificationQuery db id) as [|row others] eqn:Eq.
  { cbn. split; [|split; [|split]].
    - split; [discriminate|].
      intros (u & id' & row & others & _ & _ & H & Hq & _).
      inversion H; subst id'. congruence.
    - intros _. intuition.
    - intros u _ _. split; [discriminate|]. intros id' H.
      inversion H; subst id'. split; [reflexivity|].
      intros row others Hq. congruence.
    - discriminate. }
  destruct (fst row =? Jwt.p_userId user) eqn:Eown; cbn [negb].
  - apply Z.eqb_eq in Eown. cbn. split; [|split; [|split]].
    + split; [|reflexivity]. intros _. exists user, id, row, others. auto.
    + intros H. contradiction H. reflexivity.
    + intros u H _. inversion H; subst u. split; [discriminate|].
      intros id' Hid. inversion Hid; subst id'. split; [congruence|].
      intros row' others' Hq Hne. rewrite Eq in Hq.
      inversion Hq; subst row' others'. contradiction.
    + intros _. split; [|auto]. apply map_set_status_proj.
      intros r. unfold stable_columns.
      destruct (set_status_keys LUNAS id r) as (-> & -> & -> & -> & ->).
      reflexivity.
  - apply Z.eqb_neq in Eown. cbn. split; [|split; [|split]].
    + split; [discriminate|].
      intros (u & id' & row' & others' & H & _ & Hid & Hq & Ho).
      inversion H; subst u. inversion Hid; subst id'. rewrite Eq in Hq.
      inversion Hq; subst row' others'. contradiction.
    + intros _. intuition.
    + intros u _ _. split; [discriminate|]. intros id' Hid.
      inversion Hid; subst id'. split; [congruence|]. reflexivity.
    + discriminate.
Qed.

End ConfirmationAccess.

Lemma confirm_payment_access_witness :
  status (out_response (confirm_payment_route secret clock (fun db => db)
                          (ledger PENDING) (Some (token_of organizer)) "1"))
  = 200
  /\ status (out_response (confirm_payment_route secret clock (fun db => db)
                             (ledger PENDING) (Some (token_of organizer))
                             "9"))
     = 404
  /\ out_response (confirm_payment_route secret clock (fun db => db)
                     (ledger PENDING) (Some (token_of organizer))
                     "2147483648")
     = server_error.
Proof.
  destruct (confirm_payment_access secret clock (fun db => db)
              (ledger PENDING) (Some (token_of organizer)) "1"%string)
    as (H200 & _).
  destruct (confirm_payment_access secret clock (fun db => db)
              (ledger PENDING) (Some (token_of organizer)) "9"%string)
    as (_ & _ & H404 & _).
  destruct (confirm_payment_access secret clock (fun db => db)
              (ledger PENDING) (Some (token_of organizer))
              "2147483648"%string)
    as (_ & _ & H500 & _).
  split; [|split].
  - apply H200. exists (access_payload organizer), 1, (10, PENDING), [].
    repeat split; reflexivity.
  - apply (proj2 (H404 (access_payload organizer) eq_refl eq_refl) 9);
      reflexivity.
  - apply (proj1 (H500 (access_payload organizer) eq_refl eq_refl)).
    reflexivity.
Defined.

(** ** Nothing is ever deleted *)

Lemma grows_refl db : grows db db.
Proof.
  repeat split; exists []; now rewrite List.app_nil_r.
Qed.

Lemma grows_trans a b c : grows a b -> grows b c -> grows a c.
Proof.
  intros ((u1 & Hu1) & (e1 & He1) & (t1 & Ht1) & (r1 & Hr1))
         ((u2 & Hu2) & (e2 & He2) & (t2 & Ht2) & (r2 & Hr2)).
  repeat split.
  - exists (u1 ++ u2)%list. now rewrite Hu2, Hu1, <- List.app_assoc.
  - exists (e1 ++ e2)%list. now rewrite He2, He1, <- List.app_assoc.
  - exists (t1 ++ t2)%list. now rewrite Ht2, Ht1, <- List.app_assoc.
  - exists (r1 ++ r2)%list. now rewrite Hr2, Hr1, <- List.app_assoc.
Qed.

Lemma grows_update db st target :
  grows db (with_registrasi db (map (set_status st target)
                                    (tbl_Registrasi db))).
Proof.
  repeat split; try (exists []; now rewrite List.app_nil_r).
  exists []. rewrite List.app_nil_r. cbn [with_registrasi tbl_Registrasi].
  apply map_set_status_proj. intros r. unfold stable_columns.
  destruct (set_status_keys st target r) as (-> & -> & -> & -> & ->).
  reflexivity.
Qed.

Section AppendOnly.

Variable JWT_SECRET : string.

Lemma grows_step db a : grows db (step JWT_SECRET db a).
Proof.
  destruct a as [u|e|clock new_id bearer eventId nama harga kuota
                 |w bearer eventId tiket|clock bearer rid|gateway];
    cbn [step].
  - unfold insert_user. destruct (existsb _ _); [apply grows_refl|].
    repeat split; cbn; try (exists []; now rewrite List.app_nil_r).
    now exists [u].
  - unfold insert_event. destruct (existsb _ _); [apply grows_refl|].
    repeat split; cbn; try (exists []; now rewrite List.app_nil_r).
    now exists [e].
  - destruct (add_ticket_db JWT_SECRET clock new_id db bearer eventId nama
                            harga kuota) as [->|(_ & _ & ->)];
      [apply grows_refl|].
    repeat split; cbn; try (exists []; now rewrite List.app_nil_r).
    now eexists.
  - destruct (register_handler_shape JWT_SECRET w db bearer eventId tiket)
      as [(-> & _)|(user & td & rest & _ & _ & _ & _ &
                    [(-> & _)|(_ & -> & _)])];
      try apply grows_refl.
    repeat split; cbn; try (exists []; now rewrite List.app_nil_r).
    rewrite map_app. now eexists.
  - destruct (confirm_payment_db JWT_SECRET clock db bearer rid) as [->| ->];
      [apply grows_refl|apply grows_update].
  - destruct (notification_db gateway db) as [->|(st & target & ->)];
      [apply grows_refl|apply grows_update].
Qed.

(** X7: whatever requests the server handles, in whatever order, no row of
    any table is ever deleted or moved, no user, event or ticket type is
    ever altered, and of a ledger row only the payment status can change:
    its id, event, user, ticket type and redemption code stay. *)
Theorem tables_only_grow history db :
  grows db (fold_left (step JWT_SECRET) history db).
Proof.
  revert db. induction history as [|a history IH]; intros db;
    cbn [fold_left].
  - apply grows_refl.
  - apply (grows_trans _ (step JWT_SECRET db a)); [apply grows_step|apply IH].
Qed.

End AppendOnly.

(** ** Successive status updates *)

Lemma set_status_overwrites st1 st2 target r :
  set_status st2 target (set_status st1 target r) = set_status st2 target r.
Proof.
  unfold set_status. destruct (r_id r =? target) eqn:E; cbn.
  - now rewrite E.
  - now rewrite E.
Qed.

Lemma notification_applies statusResponse db orderId segment target :
  sr_order_id statusResponse = Some orderId ->
  registrasiId_of_order orderId = Some segment ->
  Pg.int4_in segment = Some target ->
  out_db (notification_handler (Some statusResponse) db)
  = with_registrasi db
      (map (set_status (newStatus (sr_transaction_status statusResponse)
                                  (sr_fraud_status statusResponse)) target)
           (tbl_Registrasi db)).
Proof.
  intros Ho Hs Hp. unfold notification_handler. rewrite Ho, Hs, Hp.
  reflexivity.
Qed.

(** X8: the last notification wins.  Of two notifications for the same
    registration the second alone decides the status, whatever the first
    one said; and a notification that arrives after the organizer's
    confirmation overwrites it, so a confirmed (LUNAS) row can go back to
    PENDING or BATAL. *)
Theorem last_notification_wins secret clock bearer db first second
        order1 order2 segment1 segment2 target :
  sr_order_id first = Some order1 ->
  registrasiId_of_order order1 = Some segment1 ->
  Pg.int4_in segment1 = Some target ->
  sr_order_id second = Some order2 ->
  registrasiId_of_order order2 = Some segment2 ->
  Pg.int4_in segment2 = Some target ->
  out_db (notification_handler (Some second)
            (out_db (notification_handler (Some first) db)))
  = out_db (notification_handler (Some second) db)
  /\ out_db (notification_handler (Some second)
               (out_db (confirm_payment_handler secret clock db bearer
                                                target)))
     = out_db (notification_handler (Some second) db).
Proof.
  intros Ho1 Hs1 Hp1 Ho2 Hs2 Hp2.
  rewrite !(notification_applies second _ order2 segment2 target Ho2 Hs2 Hp2).
  split.
  - rewrite (notification_applies first _ order1 segment1 target Ho1 Hs1 Hp1).
    unfold with_registrasi. cbn [tbl_User tbl_Event tbl_TiketTipe
                                 tbl_Registrasi].
    f_equal. rewrite map_map. apply map_ext. intros r.
    apply set_status_overwrites.
  - destruct (confirm_payment_db secret clock db bearer target) as [->| ->];
      [reflexivity|].
    unfold with_registrasi. cbn [tbl_User tbl_Event tbl_TiketTipe
                                 tbl_Registrasi].
    f_equal. rewrite map_map. apply map_ext. intros r.
    apply set_status_overwrites.
Qed.

Lemma last_notification_wins_witness :
  out_db (notification_handler (gateway_says "expire")
            (out_db (confirm_payment_handler secret clock (ledger PENDING)
                                             (Some (token_of organizer)) 1)))
  = ledger BATAL.
Proof.
  assert (Hs : registrasiId_of_order alice_order = Some "1"%string)
    by reflexivity.
  assert (Hp : Pg.int4_in "1" = Some 1) by reflexivity.
  exact (proj2
           (last_notification_wins secret clock (Some (token_of organizer))
              (ledger PENDING)
              (mkStatusResponse (Some alice_order) (Some "settlement"%string)
                                None)
              (mkStatusResponse (Some alice_order) (Some "expire"%string) None)
              alice_order alice_order "1"%string "1"%string 1
              eq_refl Hs Hp eq_refl Hs Hp)).
Defined.

(** ** Tokens issued by the refresh endpoint *)

Section IssuedTokens.

Variables JWT_SECRET JWT_REFRESH_SECRET : string.

Lemma refresh_200 clock db refreshToken token user :
  out_response (refresh_handler JWT_SECRET JWT_REFRESH_SECRET clock db
                                refreshToken)
  = mkResponse 200 (BRefreshed token user) ->
  exists payload exp row others,
    refreshToken = Some (Jwt.Signed JWT_REFRESH_SECRET payload exp)
    /\ clock < exp
    /\ userQuery db (Jwt.p_userId payload) = row :: others
    /\ token = Jwt.Signed JWT_SECRET (access_payload row) (clock + one_hour)
    /\ user = public_user row.
Proof.
  unfold refresh_handler.
  destruct refreshToken as [[k p e|[|c raw]]|]; cbn [Jwt.verify];
    try (cbn; discriminate).
  destruct (String.eqb_spec k JWT_REFRESH_SECRET) as [->|];
    [|cbn; discriminate].
  destruct (e <=? clock) eqn:Ee; [cbn; discriminate|].
  destruct (userQuery db (Jwt.p_userId p)) as [|row others] eqn:Eu;
    [cbn; discriminate|].
  cbn. intros H. inversion H; subst.
  exists p, e, row, others. apply Z.leb_gt in Ee. repeat split; auto.
Qed.

(** X9: when the refresh endpoint answers 200, the refresh token was
    signed with the refresh secret and had not expired, and the user in the
    answer is the row of the user table whose id the refresh token names.
    The access token issued is accepted by the bearer check of the
    protected routes until one hour after it was issued and refused as
    expired from then on; while accepted, it identifies that user, with the
    e-mail address and the role the row has at the time of the refresh. *)
Theorem refreshed_token_authenticates clock db refreshToken token user now :
  out_response (refresh_handler JWT_SECRET JWT_REFRESH_SECRET clock db
                                refreshToken)
  = mkResponse 200 (BRefreshed token user) ->
  exists payload exp row,
    refreshToken = Some (Jwt.Signed JWT_REFRESH_SECRET payload exp)
    /\ clock < exp
    /\ In row (tbl_User db)
    /\ u_id row = Jwt.p_userId payload
    /\ public_user row = user
    /\ up_id user = Jwt.p_userId payload
    /\ (now < clock + 3600 ->
        authenticateToken JWT_SECRET now (Some token)
        = inr (Jwt.mkPayload (Jwt.p_userId payload) (Some (u_email row))
                             (Some (u_role row)) None))
    /\ (clock + 3600 <= now ->
        exists fx,
          authenticateToken JWT_SECRET now (Some token)
          = inl (mkResponse 401 BTokenExpired, fx)).
Proof.
  intros H. apply refresh_200 in H.
  destruct H as (payload & exp & row & others & -> & Hexp & Hq & -> & ->).
  assert (Hin : In row (userQuery db (Jwt.p_userId payload)))
    by (rewrite Hq; now left).
  unfold userQuery in Hin. apply filter_In in Hin. destruct Hin as [Hin Hid].
  apply Z.eqb_eq in Hid.
  exists payload, exp, row.
  repeat (split; [first [assumption|reflexivity]|]).
  split.
  - intros Hnow. unfold authenticateToken. cbn [Jwt.verify].
    rewrite String.eqb_refl. unfold one_hour.
    apply Z.leb_gt in Hnow. rewrite Hnow.
    unfold access_payload. rewrite Hid. reflexivity.
  - intros Hnow. eexists. unfold authenticateToken. cbn [Jwt.verify].
    rewrite String.eqb_refl. unfold one_hour.
    apply Z.leb_le in Hnow. rewrite Hnow. reflexivity.
Qed.

(** X10: with two different secrets the two kinds of token cannot stand in
    for one another: a token the refresh endpoint accepts is refused (403)
    as a bearer token, and a bearer token the protected routes accept is
    refused (403) by the refresh endpoint. *)
Theorem token_kinds_are_separate clock now db token :
  JWT_SECRET <> JWT_REFRESH_SECRET ->
  (status (out_response
             (refresh_handler JWT_SECRET JWT_REFRESH_SECRET clock db
                              (Some token))) = 200 ->
   exists fx,
     authenticateToken JWT_SECRET now (Some token)
     = inl (mkResponse 403 (BMessage "Akses ditolak: Token tidak valid"), fx))
  /\ (forall user,
         authenticateToken JWT_SECRET now (Some token) = inr user ->
         out_response
           (refresh_handler JWT_SECRET JWT_REFRESH_SECRET clock db
                            (Some token))
         = mkResponse 403 (BMessage "Refresh token tidak valid")).
Proof.
  intros Hneq. split.
  - unfold refresh_handler.
    destruct token as [k p e|[|c raw]]; cbn [Jwt.verify];
      try (cbn; discriminate).
    destruct (String.eqb_spec k JWT_REFRESH_SECRET) as [->|];
      [|cbn; discriminate].
    intros _. eexists. unfold authenticateToken. cbn [Jwt.verify].
    assert (E : String.eqb JWT_REFRESH_SECRET JWT_SECRET = false)
      by (apply String.eqb_neq; congruence).
    rewrite E. reflexivity.
  - intros user. unfold authenticateToken, refresh_handler.
    destruct token as [k p e|[|c raw]]; cbn [Jwt.verify]; try discriminate.
    destruct (String.eqb_spec k JWT_SECRET) as [->|]; [|discriminate].
    intros _.
    assert (E : String.eqb JWT_SECRET JWT_REFRESH_SECRET = false)
      by (apply String.eqb_neq; congruence).
    rewrite E. reflexivity.
Qed.

End IssuedTokens.

Lemma refreshed_token_authenticates_witness :
  exists payload exp row,
    Some (refresh_token_for (u_id alice))
    = Some (Jwt.Signed refresh_secret payload exp)
    /\ clock < exp
    /\ In row (tbl_User catalog)
    /\ u_id row = Jwt.p_userId payload
    /\ public_user row = public_user alice
    /\ up_id (public_user alice) = Jwt.p_userId payload
    /\ (clock + 3599 < clock + 3600 ->
        authenticateToken secret (clock + 3599)
          (Some (Jwt.Signed secret (access_payload alice) (clock + 3600)))
        = inr (Jwt.mkPayload (Jwt.p_userId payload) (Some (u_email row))
                             (Some (u_role row)) None))
    /\ (clock + 3600 <= clock + 3599 ->
        exists fx,
          authenticateToken secret (clock + 3599)
            (Some (Jwt.Signed secret (access_payload alice) (clock + 3600)))
          = inl (mkResponse 401 BTokenExpired, fx)).
Proof.
  exact (refreshed_token_authenticates secret refresh_secret clock catalog
           (Some (refresh_token_for (u_id alice)))
           (Jwt.Signed secret (access_payload alice) (clock + 3600))
           (public_user alice) (clock + 3599) eq_refl).
Defined.

Lemma token_kinds_are_separate_witness :
  out_response (refresh_handler secret refresh_secret clock catalog
                                (Some (token_of alice)))
  = mkResponse 403 (BMessage "Refresh token tidak valid").
Proof.
  assert (Hneq : secret <> refresh_secret) by (vm_compute; discriminate).
  apply (proj2 (token_kinds_are_separate secret refresh_secret clock clock
                  catalog (token_of alice) Hneq)
               (access_payload alice)).
  reflexivity.
Defined.

(** ** What the ledger rows refer to *)



Section LedgerSound.

Variable JWT_SECRET : string.




End LedgerSound.


(** ** Login *)

Section Login.

Variables JWT_SECRET JWT_REFRESH_SECRET : string.
Variable lib : Library.

(** X13: a login never writes to the database.  With input that passes
    validation it succeeds exactly when a user has the address and
    [bcrypt.compare] accepts the password against that user's stored hash;
    an unknown address and a wrong password get the same answer, 401 with
    the same message, so the answer does not tell which addresses exist. *)
Theorem login_outcome clock db email password :
  let o := login_handler JWT_SECRET JWT_REFRESH_SECRET lib clock db email
                         password in
  fst (fst o) = db
  /\ (reply_status (snd (fst o)) = 200 <->
      login_validation lib email password = true
      /\ exists user others,
          emailQuery db (stored_email lib email) = user :: others
          /\ bcrypt_compare lib password (u_password user) = true)
  /\ (login_validation lib email password = true ->
      (emailQuery db (stored_email lib email) = []
       \/ exists user others,
           emailQuery db (stored_email lib email) = user :: others
           /\ bcrypt_compare lib password (u_password user) = false) ->
      snd (fst o) = Refused wrong_credentials)
  /\ (login_validation lib email password = false ->
      snd (fst o) = Refused validation_failed).
Proof.
  cbv zeta. unfold login_handler.
  destruct (login_validation lib email password) eqn:Ev; cbn [negb].
  2:{ split; [reflexivity|]. split; [|split; [discriminate|reflexivity]].
      cbn. split; [discriminate|]. intros [H _]. discriminate. }
  destruct (emailQuery db (stored_email lib email)) as [|user others] eqn:Eq.
  { split; [reflexivity|]. split; [|split; [reflexivity|discriminate]].
    cbn. split; [discriminate|].
    intros (_ & u & os & H & _). discriminate. }
  destruct (bcrypt_compare lib password (u_password user)) eqn:Ec;
    cbn [negb].
  - split; [reflexivity|]. split; [|split; [|discriminate]].
    + cbn. split; [|reflexivity]. intros _. split; [reflexivity|].
      exists user, others. auto.
    + intros _ [H|(u & os & H & Hc)]; [discriminate|].
      inversion H; subst u os. congruence.
  - split; [reflexivity|]. split; [|split; [reflexivity|discriminate]].
    cbn. split; [discriminate|].
    intros (_ & u & os & H & Hc). inversion H; subst u os. congruence.
Qed.

(** X14: the tokens a successful login returns work with the rest of the
    API: the access token passes the bearer check, as the user who logged in
    and with that user's role, until one hour after the login; the refresh
    token is accepted by the refresh endpoint until seven days after the
    login, as long as the user's row is still there. *)
Theorem login_tokens_work clock db email password token refreshToken user
        now later db' :
  snd (fst (login_handler JWT_SECRET JWT_REFRESH_SECRET lib clock db email
                          password))
  = Served 200 (token, refreshToken, user) ->
  (now < clock + 3600 ->
   authenticateToken JWT_SECRET now (Some token)
   = inr (Jwt.mkPayload (up_id user) (Some (up_email user))
                        (Some (up_role user)) None))
  /\ (later < clock + 604800 ->
      userQuery db' (up_id user) <> [] ->
      status (out_response
                (refresh_handler JWT_SECRET JWT_REFRESH_SECRET later db'
                                 (Some refreshToken))) = 200).
Proof.
  unfold login_handler.
  destruct (negb (login_validation lib email password)); [discriminate|].
  destruct (emailQuery db (stored_email lib email)) as [|row others];
    [discriminate|].
  destruct (negb (bcrypt_compare lib password (u_password row)));
    [discriminate|].
  cbn [fst snd]. intros H. inversion H; subst. clear H. split.
  - intros Hnow. unfold authenticateToken, Jwt.sign. cbn [Jwt.verify].
    rewrite String.eqb_refl. unfold one_hour.
    apply Z.leb_gt in Hnow. rewrite Hnow. reflexivity.
  - intros Hlater Huser. unfold refresh_handler, Jwt.sign.
    cbn [Jwt.verify]. rewrite String.eqb_refl. unfold seven_days.
    apply Z.leb_gt in Hlater. rewrite Hlater.
    cbn [refresh_payload Jwt.p_userId public_user up_id] in *.
    destruct (userQuery db' (u_id row)); [congruence|reflexivity].
Qed.

End Login.

(** ** Accounts *)

Lemma existsb_false_forall {A} (f : A -> bool) (l : list A) :
  existsb f l = false <-> forall x, In x l -> f x = false.
Proof.
  split.
  - intros H x Hx. destruct (f x) eqn:E; auto.
    assert (existsb f l = true) by (apply existsb_exists; eauto). congruence.
  - intros H. destruct (existsb f l) eqn:E; auto.
    apply existsb_exists in E. destruct E as (x & Hx & E).
    rewrite (H x Hx) in E. discriminate.
Qed.

Lemma filter_none_in {A} (f : A -> bool) (l : list A) :
  (forall x, In x l -> f x = false) -> filter f l = [].
Proof.
  induction l as [|a l IH]; cbn [filter]; auto.
  intros H. rewrite (H a) by now left. apply IH.
  intros x Hx. apply H. now right.
Qed.

Section Accounts.

Variables JWT_SECRET JWT_REFRESH_SECRET : string.
Variable lib : Library.

Lemma auth_register_201 new_id salt db email password nama role :
  reply_status (snd (fst (auth_register_handler lib new_id salt db email
                                                password nama role))) = 201 ->
  register_validation lib email password nama role = true
  /\ existsb (fun u => String.eqb (u_email u) (stored_email lib email)
                       || (u_id u =? new_id)) (tbl_User db) = false
  /\ auth_register_handler lib new_id salt db email password nama role
     = (mkDb (tbl_User db ++
              [mkUser new_id (stored_email lib email)
                      (bcrypt_hash lib password salt) (sanitizeInput nama)
                      (userRole role)])
             (tbl_Event db) (tbl_TiketTipe db) (tbl_Registrasi db),
        Served 201
          (mkUserPublic new_id (stored_email lib email) (sanitizeInput nama)
                        (userRole role)),
        [ConsoleLog "[AUDIT] New user registered"]).
Proof.
  unfold auth_register_handler.
  destruct (register_validation lib email password nama role);
    [|cbn; discriminate].
  cbn [negb]. unfold insertUserQuery.
  destruct (existsb _ (tbl_User db)); [cbn; discriminate|].
  intros _. repeat split.
Qed.


Lemma password_policy_nonempty password :
  password_policy password = true -> String.eqb password "" = false.
Proof.
  destruct password; [discriminate|reflexivity].
Qed.

(** X16: registering and then logging in with the same address and
    password succeeds, provided [bcrypt.compare] accepts a password against
    its own hash: the login answers 200 for the user just created, and its
    access token passes the bearer check with the id and the role of that
    user. *)
Theorem register_then_login new_id salt db email password nama role clock :
  reply_status (snd (fst (auth_register_handler lib new_id salt db email
                                                password nama role))) = 201 ->
  bcrypt_compare lib password (bcrypt_hash lib password salt) = true ->
  let db1 := fst (fst (auth_register_handler lib new_id salt db email
                                             password nama role)) in
  let account := mkUserPublic new_id (stored_email lib email)
                              (sanitizeInput nama) (userRole role) in
  exists token refreshToken,
    snd (fst (login_handler JWT_SECRET JWT_REFRESH_SECRET lib clock db1 email
                            password))
    = Served 200 (token, refreshToken, account)
    /\ authenticateToken JWT_SECRET clock (Some token)
       = inr (Jwt.mkPayload new_id (Some (stored_email lib email))
                            (Some (userRole role)) None).
Proof.
  intros H201 Hbcrypt. cbv zeta.
  destruct (auth_register_201 new_id salt db email password nama role H201)
    as (Hv & Hfresh & ->).
  cbn [fst]. unfold login_handler.
  unfold register_validation in Hv.
  repeat (apply andb_true_iff in Hv; destruct Hv as [Hv ?]).
  assert (Hlv : login_validation lib email password = true).
  { unfold login_validation. rewrite Hv.
    rewrite password_policy_nonempty by assumption. reflexivity. }
  rewrite Hlv. cbn [negb].
  unfold emailQuery. cbn [tbl_User]. rewrite filter_app.
  rewrite (filter_none_in _ (tbl_User db)).
  2:{ intros u Hu. apply (proj1 (existsb_false_forall _ _) Hfresh) in Hu.
      apply orb_false_iff in Hu. apply Hu. }
  cbn [filter app u_email]. rewrite String.eqb_refl.
  cbn [u_password]. rewrite Hbcrypt. cbn [negb].
  eexists _, _. split; [reflexivity|].
  unfold authenticateToken, Jwt.sign. cbn [Jwt.verify].
  rewrite String.eqb_refl.
  assert (E : (clock + one_hour <=? clock) = false)
    by (apply Z.leb_gt; unfold one_hour; lia).
  rewrite E. reflexivity.
Qed.

End Accounts.

Lemma register_then_login_witness :
  exists token refreshToken,
    snd (fst (login_handler secret refresh_secret Sample.library clock
                (fst (fst (auth_register_handler Sample.library 4 Sample.salt
                             catalog Sample.carol_email Sample.carol_password
                             "Carol" None)))
                Sample.carol_email Sample.carol_password))
    = Served 200 (token, refreshToken,
                  mkUserPublic 4 "carol@example.com" "Carol" PESERTA)
    /\ authenticateToken secret clock (Some token)
       = inr (Jwt.mkPayload 4 (Some "carol@example.com"%string)
                            (Some PESERTA) None).
Proof.
  exact (register_then_login secret refresh_secret Sample.library 4
           Sample.salt catalog Sample.carol_email Sample.carol_password
           "Carol"%string None clock eq_refl eq_refl).
Defined.


Lemma login_outcome_witness :
  snd (fst (login_handler secret refresh_secret Sample.library clock catalog
                          "nobody@example.com" "Passw0rd"))
  = Refused wrong_credentials
  /\ snd (fst (login_handler secret refresh_secret Sample.library clock
                             catalog "alice@example.com" "Passw0rd"))
     = Refused wrong_credentials.
Proof.
  split.
  - apply (proj1 (proj2 (proj2 (login_outcome secret refresh_secret
                                  Sample.library clock catalog
                                  "nobody@example.com"%string
                                  "Passw0rd"%string)))).
    + reflexivity.
    + left. reflexivity.
  - apply (proj1 (proj2 (proj2 (login_outcome secret refresh_secret
                                  Sample.library clock catalog
                                  "alice@example.com"%string
                                  "Passw0rd"%string)))).
    + reflexivity.
    + right. exists alice, []. split; reflexivity.
Defined.

Lemma login_tokens_work_witness :
  status (out_response
            (refresh_handler secret refresh_secret (clock + 86400) catalog
               (Some (Jwt.sign (refresh_payload alice) refresh_secret clock
                               seven_days)))) = 200.
Proof.
  pose (stored := mkUser 2 "alice@example.com" "$2a$12$saltPassw0rd" "Alice"
                         PESERTA).
  pose (db := mkDb [organizer; stored; bob] [techfest] [free_entry; vip] []).
  assert (Hlater : clock + 86400 < clock + 604800)
    by (vm_compute; reflexivity).
  assert (Huser : userQuery catalog (up_id (public_user stored)) <> [])
    by (vm_compute; discriminate).
  exact (proj2
           (login_tokens_work secret refresh_secret Sample.library clock db
              "alice@example.com"%string "Passw0rd"%string
              (Jwt.sign (access_payload stored) secret clock one_hour)
              (Jwt.sign (refresh_payload stored) refresh_secret clock
                        seven_days)
              (public_user stored) clock (clock + 86400) catalog eq_refl)
           Hlater Huser).
Defined.

(** ** Events *)

Section Events.

Variable JWT_SECRET : string.

(** X18: the list of attendees is served exactly to a caller with a valid
    token and the role ORGANISASI who created the event, the event id in
    the URL being text the database reads as an integer; for a caller with
    such a token, an id that is not such text is answered 500, an unknown
    event 404 and somebody else's event 403.  The list holds one entry for
    each registration of the event joined with its user and its ticket
    type, as the tables are when the list is read, and nothing else: no
    registration of another event appears. *)
Theorem attendees_access clock between db bearer eventId :
  let o := attendees_route JWT_SECRET clock between db bearer eventId in
  (reply_status (fst o) = 200 <->
   exists user e ev others,
     authenticateToken JWT_SECRET clock bearer = inr user
     /\ Jwt.p_role user = Some ORGANISASI
     /\ Pg.int4_in eventId = Some e
     /\ eventCheckQuery db e = ev :: others
     /\ e_created_by_user_id ev = Jwt.p_userId user)
  /\ (forall user,
         authenticateToken JWT_SECRET clock bearer = inr user ->
         Jwt.p_role user = Some ORGANISASI ->
         (Pg.int4_in eventId = None -> fst o = Refused server_error)
         /\ (forall e,
                Pg.int4_in eventId = Some e ->
                (eventCheckQuery db e = [] -> reply_status (fst o) = 404)
                /\ (forall ev others,
                       eventCheckQuery db e = ev :: others ->
                       e_created_by_user_id ev <> Jwt.p_userId user ->
                       reply_status (fst o) = 403)))
  /\ (forall rows,
         fst o = Served 200 rows ->
         exists e,
           Pg.int4_in eventId = Some e
           /\ forall a,
               In a rows <->
               exists r u tt,
                 In r (tbl_Registrasi (between db)) /\ r_event_id r = e
                 /\ In u (tbl_User (between db)) /\ u_id u = r_user_id r
                 /\ In tt (tbl_TiketTipe (between db))
                 /\ tt_id tt = r_tiket_tipe_id r
                 /\ a = mkAttendee (r_id r) (r_status_pembayaran r)
                                   (u_nama_lengkap u) (u_email u)
                                   (tt_nama_tiket tt) (tt_harga tt)).
Proof.
  cbv zeta.
  assert (Hrows : forall d e a,
             In a (attendeesQuery d e) <->
             exists r u tt,
               In r (tbl_Registrasi d) /\ r_event_id r = e
               /\ In u (tbl_User d) /\ u_id u = r_user_id r
               /\ In tt (tbl_TiketTipe d) /\ tt_id tt = r_tiket_tipe_id r
               /\ a = mkAttendee (r_id r) (r_status_pembayaran r)
                                 (u_nama_lengkap u) (u_email u)
                                 (tt_nama_tiket tt) (tt_harga tt)).
  { intros d e a. unfold attendeesQuery. rewrite in_flat_map. split.
    - intros (r & Hr & H). apply filter_In in Hr. destruct Hr as [Hr Er].
      apply in_flat_map in H. destruct H as (u & Hu & H).
      apply filter_In in Hu. destruct Hu as [Hu Eu].
      apply in_map_iff in H. destruct H as (tt & <- & Htt).
      apply filter_In in Htt. destruct Htt as [Htt Et].
      apply Z.eqb_eq in Er, Eu, Et.
      exists r, u, tt. repeat split; auto.
    - intros (r & u & tt & Hr & Er & Hu & Eu & Htt & Et & ->).
      exists r. split.
      + apply filter_In. split; auto. now apply Z.eqb_eq.
      + apply in_flat_map. exists u. split.
        * apply filter_In. split; auto. apply Z.eqb_eq. auto.
        * apply in_map_iff. exists tt. split; auto.
          apply filter_In. split; auto. apply Z.eqb_eq. auto. }
  unfold attendees_route.
  destruct (authenticateToken JWT_SECRET clock bearer) as [[resp fx]|user]
    eqn:Eauth.
  { apply authenticateToken_rejects in Eauth. destruct Eauth as [Hs _].
    split; [|split].
    - cbn. split.
      + intros H. rewrite H in Hs. cbn in Hs. intuition discriminate.
      + intros (u & e & ev & others & H & _). discriminate.
    - intros u H. discriminate.
    - intros rows H. discriminate. }
  destruct (requireRole [ORGANISASI] user) as [[resp fx]|] eqn:Erole.
  { split; [|split].
    - cbn. split.
      + apply requireRole_refuses in Erole. destruct Erole as [Hs _].
        intros H. rewrite H in Hs. discriminate.
      + intros (u & e & ev & others & H & Hr & _). inversion H; subst u.
        apply requireRole_organisasi in Hr. congruence.
    - intros u H Hr. inversion H; subst u.
      apply requireRole_organisasi in Hr. congruence.
    - intros rows H. discriminate. }
  apply requireRole_organisasi in Erole.
  destruct (Pg.int4_in eventId) as [e|] eqn:Eid.
  2:{ split; [|split].
      - cbn. split; [discriminate|].
        intros (u & e & ev & others & _ & _ & H & _). discriminate.
      - intros u _ _. split; [reflexivity|]. intros e H. discriminate.
      - intros rows H. discriminate. }
  destruct (eventCheckQuery db e) as [|ev others] eqn:Eq.
  { split; [|split].
    - cbn. split; [discriminate|].
      intros (u & e' & ev & others & _ & _ & H & Hq & _).
      inversion H; subst e'. congruence.
    - intros u _ _. split; [discriminate|]. intros e' H.
      inversion H; subst e'. split; [reflexivity|].
      intros ev others Hq. congruence.
    - intros rows H. discriminate. }
  destruct (e_created_by_user_id ev =? Jwt.p_userId user) eqn:Eown;
    cbn [negb].
  - apply Z.eqb_eq in Eown. split; [|split].
    + cbn. split; [|reflexivity]. intros _. exists user, e, ev, others. auto.
    + intros u H _. inversion H; subst u. split; [discriminate|].
      intros e' He. inversion He; subst e'. split; [congruence|].
      intros ev' others' Hq Hne. rewrite Eq in Hq.
      inversion Hq; subst. contradiction.
    + intros rows H. cbn in H. inversion H; subst rows.
      exists e. split; [reflexivity|]. apply Hrows.
  - apply Z.eqb_neq in Eown. split; [|split].
    + cbn. split; [discriminate|].
      intros (u & e' & ev' & others' & H & _ & He & Hq & Ho).
      inversion H; subst u. inversion He; subst e'. rewrite Eq in Hq.
      inversion Hq; subst. contradiction.
    + intros u _ _. split; [discriminate|]. intros e' He.
      inversion He; subst e'. split; [congruence|]. intros; reflexivity.
    + intros rows H. discriminate.
Qed.

End Events.

Lemma attendees_access_witness :
  reply_status (fst (attendees_route secret clock (fun db => db)
                       (ledger LUNAS) (Some (token_of organizer)) "1")) = 200
  /\ fst (attendees_route secret clock (fun db => db) (ledger LUNAS)
                          (Some (token_of organizer)) "1")
     = Served 200 [mkAttendee 1 LUNAS "Alice" "alice@example.com" "VIP" 50000]
  /\ fst (attendees_route secret clock (fun db => db) (ledger LUNAS)
                          (Some (token_of organizer)) "one")
     = Refused server_error.
Proof.
  split; [|split; [reflexivity|]].
  - apply (proj1 (attendees_access secret clock (fun db => db)
                    (ledger LUNAS) (Some (token_of organizer)) "1"%string)).
    exists (access_payload organizer), 1, techfest, [].
    repeat split; reflexivity.
  - apply (proj1 (proj1 (proj2 (attendees_access secret clock (fun db => db)
                    (ledger LUNAS) (Some (token_of organizer))
                    "one"%string))
                   (access_payload organizer) eq_refl eq_refl)).
    reflexivity.
Defined.

(** ** The page of an event *)

Lemma insert_by_harga_perm t l : Permutation (insert_by_harga t l) (t :: l).
Proof.
  induction l as [|x l IH]; cbn [insert_by_harga]; auto.
  destruct (tt_harga t <=? tt_harga x); auto.
  apply (perm_trans (l' := x :: t :: l)); [now constructor|constructor].
Qed.

Lemma order_by_harga_perm l : Permutation (order_by_harga l) l.
Proof.
  induction l as [|x l IH]; cbn [order_by_harga fold_right]; auto.
  apply (perm_trans (insert_by_harga_perm x _)). now constructor.
Qed.

Lemma insert_by_harga_sorted t l :
  Sorted (fun a b => tt_harga a <= tt_harga b) l ->
  Sorted (fun a b => tt_harga a <= tt_harga b) (insert_by_harga t l).
Proof.
  induction l as [|x l IH]; cbn [insert_by_harga]; intros Hs.
  - repeat constructor.
  - destruct (tt_harga t <=? tt_harga x) eqn:E.
    + apply Z.leb_le in E. constructor; auto.
    + apply Z.leb_gt in E. inversion Hs as [|? ? Hs' Hhd]; subst.
      constructor; auto.
      destruct l as [|y l]; cbn [insert_by_harga].
      * constructor. lia.
      * destruct (tt_harga t <=? tt_harga y); constructor;
          [lia|inversion Hhd; auto].
Qed.

Lemma order_by_harga_sorted l :
  Sorted (fun a b => tt_harga a <= tt_harga b) (order_by_harga l).
Proof.
  induction l as [|x l IH]; cbn [order_by_harga fold_right].
  - constructor.
  - now apply insert_by_harga_sorted.
Qed.

(** X19: the page of an event is answered 500 exactly when the id in the
    URL is not text the database reads as an integer, and 404 exactly when
    it is such text and no event of that id is joined with the user who
    created it, so also for an event whose creator's row is missing.
    Otherwise the answer is 200 and shows that event, the name of its
    creator, and the ticket types of the event as the table holds them when
    they are read, all of them and no others, each as often as it is in the
    table, in order of non-decreasing price. *)
Theorem event_detail_outcome between db id :
  let o := event_detail_route between db id in
  (fst o = Refused server_error <-> Pg.int4_in id = None)
  /\ (reply_status (fst o) = 404 <->
      exists n,
        Pg.int4_in id = Some n
        /\ forall e u, In e (tbl_Event db) -> In u (tbl_User db) ->
                       e_id e = n -> u_id u <> e_created_by_user_id e)
  /\ In (reply_status (fst o)) [200; 404; 500]
  /\ (forall detail,
         fst o = Served 200 detail ->
         exists n,
           Pg.int4_in id = Some n
           /\ In (ed_event detail) (tbl_Event db)
           /\ e_id (ed_event detail) = n
           /\ (exists u, In u (tbl_User db)
                         /\ u_id u = e_created_by_user_id (ed_event detail)
                         /\ ed_nama_organisasi detail = u_nama_lengkap u)
           /\ Permutation (ed_tickets detail)
                          (filter (fun t => tt_event_id t =? n)
                                  (tbl_TiketTipe (between db)))
           /\ StronglySorted (fun a b => tt_harga a <= tt_harga b)
                             (ed_tickets detail)).
Proof.
  cbv zeta.
  assert (Hq : forall n p, In p (eventQuery db n) <->
                         In (fst p) (tbl_Event db) /\ In (snd p) (tbl_User db)
                         /\ e_id (fst p) = n
                         /\ u_id (snd p) = e_created_by_user_id (fst p)).
  { intros n [e u]. unfold eventQuery. rewrite in_flat_map. cbn [fst snd].
    split.
    - intros (e' & He & H). apply in_map_iff in H.
      destruct H as (u' & Heq & Hu). inversion Heq; subst e' u'.
      apply filter_In in Hu. destruct Hu as [Hu Hc].
      apply andb_true_iff in Hc. destruct Hc as [H1 H2].
      apply Z.eqb_eq in H1, H2. auto.
    - intros (He & Hu & Hid & Hown). exists e. split; auto.
      apply in_map_iff. exists u. split; auto.
      apply filter_In. split; auto.
      rewrite Hid, Hown, !Z.eqb_refl. reflexivity. }
  unfold event_detail_route.
  destruct (Pg.int4_in id) as [n|] eqn:Eid.
  2:{ cbn. split; [split; auto|].
      split; [split; [discriminate|intros (n & H & _); discriminate]|].
      split; [auto|]. intros d H. discriminate. }
  destruct (eventQuery db n) as [|eventData others] eqn:Eq.
  - cbn. split; [split; discriminate|].
    split; [|split; [auto|intros d H; discriminate]].
    split; [|reflexivity]. intros _. exists n. split; [reflexivity|].
    intros e u He Hu Hid Hown.
    assert (Hin : In (e, u) (eventQuery db n)) by (apply Hq; cbn; auto).
    rewrite Eq in Hin. destruct Hin.
  - assert (Hin : In eventData (eventQuery db n))
      by (rewrite Eq; now left).
    apply Hq in Hin. destruct Hin as (He & Hu & Hid & Hown).
    cbn. split; [split; discriminate|].
    split; [|split; [auto|]].
    + split; [discriminate|]. intros (n' & Hn & H). exfalso.
      inversion Hn; subst n'.
      apply (H (fst eventData) (snd eventData)); auto.
    + intros detail H. inversion H; subst detail.
      cbn [ed_event ed_nama_organisasi ed_tickets].
      exists n. split; [reflexivity|].
      split; [exact He|]. split; [exact Hid|].
      split; [exists (snd eventData); auto|].
      unfold ticketsQuery. split; [apply order_by_harga_perm|].
      apply Sorted_StronglySorted; [|apply order_by_harga_sorted].
      intros a b c. lia.
Qed.

Lemma event_detail_outcome_witness :
  reply_status (fst (event_detail_route (fun db => db) catalog "7")) = 404
  /\ fst (event_detail_route (fun db => db) catalog "1")
     = Served 200 (mkEventDetail techfest "Acme" [free_entry; vip])
  /\ fst (event_detail_route (fun db => db) catalog "4294967297")
     = Refused server_error.
Proof.
  split; [|split; [reflexivity|]].
  - apply (proj1 (proj2 (event_detail_outcome (fun db => db) catalog
                                              "7"%string))).
    exists 7. split; [reflexivity|].
    intros e u [<-|[]] _ Hid. discriminate Hid.
  - apply (proj1 (event_detail_outcome (fun db => db) catalog
                                       "4294967297"%string)).
    reflexivity.
Defined.

(** ** The browser client: refreshing and ending a session *)

Lemma refresh_never_redirects network st href :
  ~ In (Client.Redirect href)
       (snd (Client.refreshAccessToken network st)).
Proof.
  unfold Client.refreshAccessToken.
  destruct (negb (Client.truthy (Client.getItem st "refreshToken")));
    [intros []|].
  destruct (network _) as [response|]; [|cbn; intuition discriminate].
  destruct (negb (Client.ok response)); [cbn; intuition discriminate|].
  destruct (Client.h_json response); cbn; intuition discriminate.
Qed.

Lemma refresh_failed_keeps_storage network st :
  snd (fst (Client.refreshAccessToken network st)) = false ->
  fst (fst (Client.refreshAccessToken network st)) = st.
Proof.
  unfold Client.refreshAccessToken.
  destruct (negb (Client.truthy (Client.getItem st "refreshToken")));
    [reflexivity|].
  destruct (network _) as [response|]; [|reflexivity].
  destruct (negb (Client.ok response)); [reflexivity|].
  destruct (Client.h_json response); [discriminate|reflexivity].
Qed.

(** X20: [refreshAccessToken] succeeds exactly when a non-empty refresh
    token is stored and the refresh request comes back with a 2xx status and
    a JSON body.  It then replaces the stored access token and user and
    nothing else, so the refresh token stays as it was; when it fails, the
    storage is untouched, and without a stored refresh token no request is
    sent at all. *)
Theorem refreshAccessToken_outcome network st :
  let o := Client.refreshAccessToken network st in
  (snd (fst o) = true <->
   exists refreshToken response data,
     Client.getItem st "refreshToken" = Some refreshToken
     /\ refreshToken <> ""%string
     /\ network refreshToken = Some response
     /\ Client.ok response = true
     /\ Client.h_json response = Some data
     /\ fst (fst o) "token"
        = Some (Client.or_undefined (Client.j_token data))
     /\ fst (fst o) "user"
        = Some (Client.or_undefined (Client.j_user data)))
  /\ (forall key, key <> "token"%string -> key <> "user"%string ->
                  fst (fst o) key = st key)
  /\ (snd (fst o) = false -> fst (fst o) = st)
  /\ (Client.truthy (Client.getItem st "refreshToken") = false ->
      snd o = [] /\ snd (fst o) = false).
Proof.
  cbv zeta. split; [|split; [|split]].
  - unfold Client.refreshAccessToken.
    destruct (Client.getItem st "refreshToken") as [rt|] eqn:Ert;
      cbn [Client.truthy negb Client.or_undefined].
    2:{ split; [discriminate|]. intros (x & _ & _ & H & _). discriminate. }
    destruct (String.eqb_spec rt "") as [->|Hne]; cbn [negb].
    { split; [discriminate|].
      intros (x & _ & _ & H & Hx & _). inversion H; subst x. congruence. }
    destruct (network rt) as [response|] eqn:En.
    2:{ split; [discriminate|].
        intros (x & r & d & H & _ & Hn & _). inversion H; subst x.
        congruence. }
    destruct (Client.ok response) eqn:Eok; cbn [negb].
    2:{ split; [discriminate|].
        intros (x & r & d & H & _ & Hn & Ho & _). inversion H; subst x.
        congruence. }
    destruct (Client.h_json response) as [data|] eqn:Ej.
    2:{ split; [discriminate|].
        intros (x & r & d & H & _ & Hn & _ & Hj & _). inversion H; subst x.
        congruence. }
    split; [|reflexivity]. intros _. exists rt, response, data.
    repeat split; auto.
  - intros key Hk1 Hk2. unfold Client.refreshAccessToken.
    destruct (negb (Client.truthy (Client.getItem st "refreshToken")));
      [reflexivity|].
    destruct (network _) as [response|]; [|reflexivity].
    destruct (negb (Client.ok response)); [reflexivity|].
    destruct (Client.h_json response); [|reflexivity].
    cbn [fst]. unfold Client.setItem.
    apply String.eqb_neq in Hk1, Hk2. rewrite Hk1, Hk2. reflexivity.
  - apply refresh_failed_keeps_storage.
  - intros H. unfold Client.refreshAccessToken. rewrite H. split; reflexivity.
Qed.

(** X21: [handleResponse] ends the session (removes the access token, the
    refresh token and the user from the storage and sends the page to "/")
    exactly when retrying is enabled, the response is a 401 flagged as
    expired and the refresh fails.  If the refresh succeeds it throws
    TOKEN_REFRESHED with the new token stored.  In every other case the
    storage is untouched: a 2xx response returns its body, and an error
    response throws the server's message; but a 401 that is not flagged as
    expired, with retrying enabled, throws 'Terjadi kesalahan' whatever the
    server said, because its body has been read already. *)
Theorem handleResponse_session network st response retryWithRefresh :
  let o := Client.handleResponse network st response retryWithRefresh in
  let expired401 :=
    Client.h_status response = 401 /\ retryWithRefresh = true
    /\ exists errorData,
        Client.h_json response = Some errorData
        /\ Client.j_expired errorData = true in
  let refreshed := snd (fst (Client.refreshAccessToken network st)) in
  (In (Client.Redirect "/") (snd o) <-> expired401 /\ refreshed = false)
  /\ (expired401 -> refreshed = false ->
      snd (fst o) = Client.Thrown Client.session_expired
      /\ fst (fst o) "token" = None
      /\ fst (fst o) "refreshToken" = None
      /\ fst (fst o) "user" = None)
  /\ (expired401 -> refreshed = true ->
      snd (fst o) = Client.Thrown "TOKEN_REFRESHED"
      /\ fst (fst o) = fst (fst (Client.refreshAccessToken network st)))
  /\ (~ expired401 ->
      fst (fst o) = st /\ snd o = []
      /\ (Client.ok response = true ->
          snd (fst o) = match Client.h_json response with
                        | Some data => Client.Returned data
                        | None => Client.Rejected
                        end)
      /\ (Client.h_status response = 401 -> retryWithRefresh = true ->
          snd (fst o) = Client.Thrown "Terjadi kesalahan")).
Proof.
  cbv zeta. unfold Client.handleResponse.
  destruct (Client.h_status response =? 401) eqn:E401.
  2:{ apply Z.eqb_neq in E401. cbn [andb].
      split; [|split; [|split]].
      - split; [intros []|]. intros [[H _] _]. contradiction.
      - intros [H _]. contradiction.
      - intros [H _]. contradiction.
      - intros _. split; [reflexivity|]. split; [reflexivity|].
        split; [|intros H; contradiction].
        intros Hok. unfold Client.finish. rewrite Hok. reflexivity. }
  apply Z.eqb_eq in E401.
  destruct retryWithRefresh; cbn [andb].
  2:{ split; [|split; [|split]].
      - split; [intros []|]. intros [(_ & H & _) _]. discriminate.
      - intros (_ & H & _). discriminate.
      - intros (_ & H & _). discriminate.
      - intros _. split; [reflexivity|]. split; [reflexivity|].
        split; [|intros _ H; discriminate].
        intros Hok. unfold Client.finish. rewrite Hok. reflexivity. }
  assert (Hnotok : Client.ok response = false).
  { unfold Client.ok. rewrite E401. reflexivity. }
  destruct (Client.h_json response) as [errorData|] eqn:Ej.
  2:{ split; [|split; [|split]].
      - split; [intros []|]. intros [(_ & _ & e & H & _) _]. discriminate.
      - intros (_ & _ & e & H & _). discriminate.
      - intros (_ & _ & e & H & _). discriminate.
      - intros _. split; [reflexivity|]. split; [reflexivity|].
        split; [congruence|]. intros _ _. unfold Client.finish.
        rewrite Hnotok. reflexivity. }
  destruct (Client.j_expired errorData) eqn:Ee.
  2:{ split; [|split; [|split]].
      - split; [intros []|]. intros [(_ & _ & e & H & He) _].
        inversion H; subst e. congruence.
      - intros (_ & _ & e & H & He). inversion H; subst e. congruence.
      - intros (_ & _ & e & H & He). inversion H; subst e. congruence.
      - intros _. split; [reflexivity|]. split; [reflexivity|].
        split; [congruence|]. intros _ _. unfold Client.finish.
        rewrite Hnotok. reflexivity. }
  assert (Hexp : Client.h_status response = 401 /\ true = true
                 /\ exists e, Some errorData = Some e
                              /\ Client.j_expired e = true)
    by (split; [exact E401|split; [reflexivity|exists errorData; auto]]).
  pose proof (refresh_never_redirects network st "/") as Hnr.
  pose proof (refresh_failed_keeps_storage network st) as Hkeep.
  destruct (Client.refreshAccessToken network st) as [[st1 refreshed] fx].
  cbn [fst snd] in *.
  destruct refreshed.
  - split; [|split; [|split]].
    + split; [intros H; contradiction|]. intros [_ H]. discriminate.
    + intros _ H. discriminate.
    + intros _ _. split; reflexivity.
    + intros H. contradiction.
  - rewrite (Hkeep eq_refl). cbn [Client.logout fst snd].
    split; [|split; [|split]].
    + split; [intros _; auto|]. intros _. apply in_or_app. right. now left.
    + intros _ _. repeat split.
    + intros _ H. discriminate.
    + intros H. contradiction.
Qed.

Lemma refreshAccessToken_outcome_witness :
  snd (fst (Client.refreshAccessToken
              (fun _ =>
                 Some (Client.mkHttpResponse 200
                         (Some (Client.mkJson false None
                                  (Some "new-access-token"%string)
                                  (Some "{}"%string)))))
              (Client.setItem (fun _ => None) "refreshToken" "stored-token")))
  = true.
Proof.
  apply (proj1 (refreshAccessToken_outcome _ _)).
  eexists "stored-token"%string, _, _.
  repeat split; try reflexivity. discriminate.
Defined.

Lemma handleResponse_session_witness :
  snd (fst (Client.handleResponse (fun _ => None)
              (Client.setItem (fun _ => None) "refreshToken" "stored-token")
              (Client.mkHttpResponse 401
                 (Some (Client.mkJson true (Some "Token expired"%string)
                                      None None)))
              true))
  = Client.Thrown Client.session_expired
  /\ snd (fst (Client.handleResponse (fun _ => None) (fun _ => None)
                 (Client.mkHttpResponse 401
                    (Some (Client.mkJson false
                             (Some "Akses ditolak: Token tidak ada"%string)
                             None None)))
                 true))
     = Client.Thrown "Terjadi kesalahan".
Proof.
  split.
  - apply (proj1 (proj2 (handleResponse_session _ _ _ _))).
    + split; [reflexivity|]. split; [reflexivity|].
      eexists. split; reflexivity.
    + reflexivity.
  - apply (proj2 (proj2 (proj2 (handleResponse_session _ _ _ _)))).
    + intros (_ & _ & e & H & He). inversion H; subst e. discriminate He.
    + reflexivity.
    + reflexivity.
Defined.

(** ** A payment step that fails after the insertion *)

Section NoRollback.

Variable JWT_SECRET : string.


End NoRollback.


(** ** The two layers agree *)

Section Layers.

Variable JWT_SECRET : string.

Lemma bind_number_some z u : bind_number z = Some u -> u = z.
Proof.
  unfold bind_number.
  destruct ((Pg.int4_min <=? z) && (z <=? Pg.int4_max)); intros H;
    inversion H; reflexivity.
Qed.

(** X23: a registration during which no other request writes, with the ids
    written as the decimal numbers [e] and [t] within the range of the
    columns and a user id within that range, goes through the route as
    through [register_handler] at [e] and [t]: the same database, the same
    answer, the same lines on the console and the same request to the
    gateway. *)
Theorem register_route_alone w db bearer e t :
  0 <= e <= Pg.int4_max ->
  0 <= t <= Pg.int4_max ->
  (forall user,
      authenticateToken JWT_SECRET (rw_clock w) bearer = inr user ->
      bind_number (Jwt.p_userId user) <> None) ->
  let h := register_route JWT_SECRET (alone_in w t) db bearer
                          (Js.number_to_string e)
                          (Some (Js.number_to_string t)) in
  let o := register_handler JWT_SECRET w db bearer e t in
  rt_db h = out_db o
  /\ rt_response h = out_response o
  /\ rt_console h
     = filter (fun x => negb (is_gateway_call x)) (out_effects o)
  /\ match rt_gateway h with
     | Some tr =>
         filter is_gateway_call (out_effects o)
         = [SnapCreateTransaction (as_parameter t tr)]
     | None => filter is_gateway_call (out_effects o) = []
     end.
Proof.
  cbv zeta. intros He Ht Huser.
  unfold register_route, register_handler, bind_text.
  cbn [alone_in alone rc_clock rc_now_qr rc_new_id rc_now_order
       rc_createTransaction rc_before_check rc_before_count
       rc_before_insert rc_before_user].
  rewrite (int4_in_number_to_string e He), (int4_in_number_to_string t Ht).
  cbn [option_map].
  destruct (authenticateToken JWT_SECRET (rw_clock w) bearer)
    as [[resp fx]|user] eqn:Eauth.
  { apply authenticateToken_rejects in Eauth. destruct Eauth as [_ Hfx].
    cbn. repeat split; auto.
    clear - Hfx. induction fx as [|x fx IH]; [reflexivity|].
    cbn [filter] in *. destruct (is_gateway_call x); [discriminate|].
    cbn [negb]. rewrite <- IH by assumption. reflexivity. }
  specialize (Huser user eq_refl).
  destruct (bind_number (Jwt.p_userId user)) as [u|] eqn:Eu; [|congruence].
  apply bind_number_some in Eu. subst u.
  destruct (tiketQuery db t e) as [|tiketData rest];
    [cbn; repeat split|].
  destruct (0 <? Z.of_nat (List.length
              (registrasiCheckQuery db (Jwt.p_userId user) e)));
    [cbn; repeat split|].
  destruct (tt_kuota (fst tiketData) <=? countQuery db t);
    [cbn; repeat split|].
  change (qrCodeUnik (Js.number_to_string e) (Jwt.p_userId user)
                     (rw_now_qr w))
    with (qr_code e (Jwt.p_userId user) (rw_now_qr w)).
  destruct (insertRegistrasiQuery db (rw_new_id w) e (Jwt.p_userId user) t
              PENDING (qr_code e (Jwt.p_userId user) (rw_now_qr w)))
    as [[db4 pendaftaranBaru]|]; [|cbn; repeat split].
  destruct (0 <? tt_harga (fst tiketData)); [|cbn; repeat split].
  destruct (userQuery db4 (Jwt.p_userId user)) as [|userData others];
    [cbn; repeat split|].
  change (as_parameter t
            (transaction_request pendaftaranBaru (rw_now_order w)
               (Some (Js.number_to_string t)) tiketData userData))
    with (snap_parameter pendaftaranBaru (rw_now_order w) t tiketData
                         userData).
  destruct (rw_createTransaction w _); cbn; repeat split.
Qed.

(** X24: with no other request writing between their two statements and
    the id written as a decimal number within the range of the column, the
    routes that create a ticket type and confirm a payment go through as
    [add_ticket_handler] and [confirm_payment_handler] at that number,
    provided price and quota fit the 32-bit columns. *)
Theorem organizer_routes_alone clock new_id db bearer n nama harga kuota :
  0 <= n <= Pg.int4_max ->
  (harga <= Pg.int4_max -> kuota <= Pg.int4_max ->
   add_ticket_route JWT_SECRET clock new_id (fun d => d) db bearer
                    (Js.number_to_string n) nama (Some harga) (Some kuota)
   = add_ticket_handler JWT_SECRET clock new_id db bearer n nama harga kuota)
  /\ confirm_payment_route JWT_SECRET clock (fun d => d) db bearer
                           (Js.number_to_string n)
     = confirm_payment_handler JWT_SECRET clock db bearer n.
Proof.
  intros Hn. split.
  - intros Hh Hk. unfold add_ticket_route, add_ticket_handler.
    rewrite (int4_in_number_to_string n Hn).
    apply Z.leb_le in Hh, Hk. rewrite Hh, Hk. cbn [andb].
    destruct (authenticateToken JWT_SECRET clock bearer) as [[resp fx]|user];
      [reflexivity|].
    destruct (requireRole [ORGANISASI] user) as [[resp fx]|]; [reflexivity|].
    destruct (negb (ticket_validation nama harga kuota)); [reflexivity|].
    destruct (eventCheckQuery db n) as [|ev others]; [reflexivity|].
    destruct (negb (e_created_by_user_id ev =? Jwt.p_userId user));
      [reflexivity|].
    destruct (insertTicketQuery db new_id n (sanitizeInput nama) harga kuota)
      as [[db2 tiketBaru]|]; reflexivity.
  - unfold confirm_payment_route, confirm_payment_handler.
    rewrite (int4_in_number_to_string n Hn).
    destruct (authenticateToken JWT_SECRET clock bearer) as [[resp fx]|user];
      [reflexivity|].
    destruct (requireRole [ORGANISASI] user) as [[resp fx]|]; [reflexivity|].
    destruct (verificationQuery db n) as [|row others]; [reflexivity|].
    destruct (negb (fst row =? Jwt.p_userId user)); reflexivity.
Qed.

End Layers.

Lemma register_route_alone_witness :
  let h := register_route secret (alone_in (world 1) 2) catalog
                          (Some (token_of bob)) "1" (Some "2") in
  let o := register_handler secret (world 1) catalog (Some (token_of bob))
                            1 2 in
  rt_db h = out_db o
  /\ rt_response h = out_response o
  /\ rt_console h
     = filter (fun x => negb (is_gateway_call x)) (out_effects o)
  /\ match rt_gateway h with
     | Some tr =>
         filter is_gateway_call (out_effects o)
         = [SnapCreateTransaction (as_parameter 2 tr)]
     | None => filter is_gateway_call (out_effects o) = []
     end.
Proof.
  apply (register_route_alone secret (world 1) catalog
                              (Some (token_of bob)) 1 2).
  - vm_compute. split; discriminate.
  - vm_compute. split; discriminate.
  - intros user H. vm_compute in H. inversion H; subst user.
    vm_compute. discriminate.
Defined.

Lemma organizer_routes_alone_witness :
  add_ticket_route secret clock 3 (fun d => d) (ledger PENDING)
                   (Some (token_of organizer)) "1" "Student" (Some 25000)
                   (Some 40)
  = add_ticket_handler secret clock 3 (ledger PENDING)
                       (Some (token_of organizer)) 1 "Student" 25000 40
  /\ confirm_payment_route secret clock (fun d => d) (ledger PENDING)
                           (Some (token_of organizer)) "1"
     = confirm_payment_handler secret clock (ledger PENDING)
                               (Some (token_of organizer)) 1.
Proof.
  assert (Hn : 0 <= 1 <= Pg.int4_max) by (vm_compute; split; discriminate).
  destruct (organizer_routes_alone secret clock 3 (ledger PENDING)
              (Some (token_of organizer)) 1 "Student"%string 25000 40 Hn)
    as [Hadd Hconfirm].
  split; [|exact Hconfirm].
  apply Hadd; vm_compute; discriminate.
Defined.
